(** * code_agent: the tool-invocation control loop and its file tools

    A shallow embedding of the Python sources of the [code_agent] package:

    - [graph.py]            the control loop ([call_llm], [should_continue],
                            [build_graph]);
    - [main.py]             [create_llm] and its fallback chat model;
    - [cli.py]              the interactive shell ([_handle_command], [chat]);
    - [file_generator.py]   [write_file];
    - [tools/*.py]          the read-file, edit-file, new-file and notebook
                            tools;
    - [agents/*.py]         the tool registry and the persistent agent.

    Python values are modelled by the Rocq data they denote: [str] by
    [string] (the UTF-8 bytes of the text), [list] by [list], [None] by
    [option], exceptions by an explicit [result] type, and the file system,
    the standard output and a pending interrupt by an explicit [World] that
    every effectful function threads through.  Libraries the package calls
    ([pathlib], [shutil], [json]) are modelled as far as the package uses
    them; components it only configures (the chat model, the tool node of
    the graph runtime, [nbformat]) are parameters. *)

From Stdlib Require Import Ascii.
From stdpp Require Import gmap strings list.

(** ** Python runtime: exceptions and results *)

Module Py.

(** The [errno] classes of [OSError] the modelled file operations raise. *)
Inductive oserror :=
  | ENOENT      (* FileNotFoundError *)
  | EISDIR      (* IsADirectoryError *)
  | ENOTDIR     (* NotADirectoryError *)
  | EEXIST      (* FileExistsError *)
  | EACCES      (* PermissionError *)
  | ESAMEFILE.  (* shutil.SameFileError *)

(** Exceptions.  [KeyboardInterrupt] derives from [BaseException] only, so
    an [except Exception] clause does not catch it. *)
Inductive exn :=
  | OSError (kind : oserror) (filename : string)
  | ValueError (msg : string)
  | IndexError (msg : string)
  | AttributeError (msg : string)
  | JSONDecodeError (msg : string)
  | RuntimeError (msg : string)
  | CodeAgentError (msg : string)
  | KeyboardInterrupt.

Definition is_Exception (e : exn) : bool :=
  match e with KeyboardInterrupt => false | _ => true end.

Definition is_OSError (e : exn) : bool :=
  match e with OSError _ _ => true | _ => false end.

Definition strerror (k : oserror) : string :=
  match k with
  | ENOENT => "[Errno 2] No such file or directory: "
  | EISDIR => "[Errno 21] Is a directory: "
  | ENOTDIR => "[Errno 20] Not a directory: "
  | EEXIST => "[Errno 17] File exists: "
  | EACCES => "[Errno 13] Permission denied: "
  | ESAMEFILE => "same file: "
  end.

(** [str(e)] *)
Definition str (e : exn) : string :=
  match e with
  | OSError k f => strerror k +:+ "'" +:+ f +:+ "'"
  | ValueError m | IndexError m | AttributeError m | JSONDecodeError m
  | RuntimeError m | CodeAgentError m => m
  | KeyboardInterrupt => ""
  end.

Inductive result (A : Type) :=
  | Ok (a : A)
  | Raise (e : exn).
Global Arguments Ok {A} a.
Global Arguments Raise {A} e.

Global Instance result_ret : MRet result := @Ok.
Global Instance result_bind : MBind result := λ A B f m,
  match m with Ok a => f a | Raise e => Raise e end.

Definition returns {A} (m : result A) : bool :=
  match m with Ok _ => true | Raise _ => false end.

End Py.
Import Py.

(** ** Chat messages ([langchain_core.messages]) *)

Record ToolCall := mkToolCall {
  tc_name : string;
  tc_args : list (string * string);
  tc_id : string
}.

Inductive BaseMessage :=
  | HumanMessage (content : string)
  | AIMessage (content : string) (tool_calls : list ToolCall)
  | ToolMessage (content : string) (name : string) (tool_call_id : string).

Definition content (m : BaseMessage) : string :=
  match m with
  | HumanMessage c | AIMessage c _ | ToolMessage c _ _ => c
  end.

Definition is_AIMessage (m : BaseMessage) : bool :=
  match m with AIMessage _ _ => true | _ => false end.

(** A runnable chat model: [model.invoke(messages)] either returns a message
    or raises. *)
Definition Runnable := list BaseMessage → result BaseMessage.

(** ** graph.py *)

Module graph.

Record AgentState := mkState { messages : list BaseMessage }.

(** [call_llm]: [response = model.invoke(state["messages"])], then a new
    list [state["messages"] + [response]]. *)
Definition call_llm (state : AgentState) (model : Runnable) : result AgentState :=
  response ← model (messages state);
  mret {| messages := messages state ++ [response] |}.

(** The two values [should_continue] returns: ["action"] and [END]. *)
Inductive route := action | END.

(** [should_continue]: [state["messages"][-1]] raises [IndexError] on the
    empty list; a list of tool calls is truthy when it is not empty. *)
Definition should_continue (state : AgentState) : result route :=
  match last (messages state) with
  | None => Raise (IndexError "list index out of range")
  | Some (AIMessage _ (_ :: _)) => Ok action
  | Some _ => Ok END
  end.

(** A chat model as [build_graph] uses it: [llm.bind_tools(tools)] yields
    the runnable of the agent node. *)
Record BaseChatModel (T : Type) := { bind_tools : list T → Runnable }.
Global Arguments bind_tools {T} _ _.

(** The compiled graph: the agent node, the action node and the routing
    between them.  [node_action] is the prebuilt [ToolNode(tools)] together
    with the state update the graph runtime performs after it. *)
Record CompiledGraph := {
  node_agent : AgentState → result AgentState;
  node_action : AgentState → result AgentState;
  conditional_edge : AgentState → result route
}.

Section build.
Context {T : Type}.
Variable ToolNode : list T → AgentState → result AgentState.

Definition build_graph (llm : BaseChatModel T) (tools : list T) : CompiledGraph :=
  let model := bind_tools llm tools in
  {| node_agent := λ state, call_llm state model;
     node_action := ToolNode tools;
     conditional_edge := should_continue |}.
End build.

(** How a run of the compiled graph ends: at [END] with the final state,
    or cut by the runtime's step limit. *)
Inductive outcome :=
  | Finished (final : AgentState) (model_calls : nat)
  | StepLimit (current : AgentState) (model_calls : nat).

(** [graph.invoke(state)]: entry point "agent"; after "agent" the
    conditional edge; after "action" back to "agent".  [fuel] bounds the
    number of visits of the agent node. *)
Fixpoint run (g : CompiledGraph) (fuel : nat) (state : AgentState) (calls : nat)
    : result outcome :=
  match fuel with
  | 0 => Ok (StepLimit state calls)
  | S fuel' =>
      s1 ← node_agent g state;
      r ← conditional_edge g s1;
      match r with
      | END => Ok (Finished s1 (S calls))
      | action => s2 ← node_action g s1; run g fuel' s2 (S calls)
      end
  end.

Definition invoke (g : CompiledGraph) (fuel : nat) (state : AgentState) : result outcome :=
  run g fuel state 0.

(** A model in the sense of the completion boundary: whatever it returns is
    an assistant message. *)
Definition chat_model (model : Runnable) : Prop :=
  ∀ ms r, model ms = Ok r → is_AIMessage r = true.

(** The message requests at least one tool call. *)
Definition requests_tools (m : BaseMessage) : bool :=
  match m with AIMessage _ (_ :: _) => true | _ => false end.

End graph.

(** ** Python [str] helpers *)

Module pystr.

Definition chr (n : nat) : string := String (Ascii.ascii_of_nat n) "".
Definition nl : string := chr 10.

(** [s.startswith(pre)] *)
Fixpoint startswith (pre s : string) : bool :=
  match pre with
  | EmptyString => true
  | String a pre' =>
      match s with
      | EmptyString => false
      | String b s' => Ascii.eqb a b && startswith pre' s'
      end
  end.

(** [sub in s] *)
Fixpoint contains (sub s : string) : bool :=
  startswith sub s ||
  match s with
  | EmptyString => false
  | String _ r => contains sub r
  end.

(** The first occurrence of a non-empty [sep] in [s]: the text before it
    and the text after it ([s.split(sep, 1)] when [sep in s]). *)
Fixpoint partition (sep s : string) : option (string * string) :=
  if startswith sep s
  then Some (EmptyString, String.substring (String.length sep) (String.length s) s)
  else match s with
       | EmptyString => None
       | String c r =>
           match partition sep r with
           | Some (a, b) => Some (String c a, b)
           | None => None
           end
       end.

(** [s.split(sep, 1)] *)
Definition split1 (sep s : string) : list string :=
  match partition sep s with
  | Some (a, b) => [a; b]
  | None => [s]
  end.

(** [a, b = xs]: unpacking into two names raises [ValueError] unless the
    list has exactly two elements. *)
Definition unpack2 (xs : list string) : result (string * string) :=
  match xs with
  | [a; b] => Ok (a, b)
  | [] | [_] => Raise (ValueError "not enough values to unpack (expected 2)")
  | _ => Raise (ValueError "too many values to unpack (expected 2)")
  end.

Definition lower_ascii (c : Ascii.ascii) : Ascii.ascii :=
  let n := Ascii.nat_of_ascii c in
  if (65 <=? n) && (n <=? 90) then Ascii.ascii_of_nat (n + 32) else c.

(** [s.lower()]; letters outside ASCII are left as they are. *)
Fixpoint lower (s : string) : string :=
  match s with
  | EmptyString => EmptyString
  | String c r => String (lower_ascii c) (lower r)
  end.

Definition is_space (c : Ascii.ascii) : bool :=
  let n := Ascii.nat_of_ascii c in
  (n =? 32) || ((9 <=? n) && (n <=? 13)) || ((28 <=? n) && (n <=? 31)).

Fixpoint lstrip (s : string) : string :=
  match s with
  | EmptyString => EmptyString
  | String c r => if is_space c then lstrip r else s
  end.

Fixpoint rstrip (s : string) : string :=
  match s with
  | EmptyString => EmptyString
  | String c r =>
      match rstrip r with
      | EmptyString => if is_space c then EmptyString else String c EmptyString
      | r' => String c r'
      end
  end.

(** [s.strip()]; the white space outside ASCII is not stripped. *)
Definition strip (s : string) : string := rstrip (lstrip s).

(** [s.split("/")] *)
Fixpoint split_slash (s : string) : list string :=
  match s with
  | EmptyString => [EmptyString]
  | String c r =>
      if Ascii.eqb c "/"%char then EmptyString :: split_slash r
      else match split_slash r with
           | x :: xs => String c x :: xs
           | [] => [String c EmptyString]
           end
  end.

(** The text before the last ["."] of [s] and the text after it. *)
Fixpoint rsplit_dot (s : string) : option (string * string) :=
  match s with
  | EmptyString => None
  | String c r =>
      match rsplit_dot r with
      | Some (a, b) => Some (String c a, b)
      | None => if Ascii.eqb c "."%char then Some (EmptyString, r) else None
      end
  end.

End pystr.

(** ** The world: file system, standard output, pending interrupt *)

Inductive inode :=
  | File (contents : string)
  | Dir.

Record World := mkWorld {
  nodes : gmap (list string) inode;   (* absolute path components ↦ node *)
  readonly : gset (list string);      (* paths that cannot be created or opened for writing *)
  cwd : list string;
  stdout : list string;               (* the lines printed so far *)
  interrupt_in : option nat           (* file-system mutations left before an interrupt arrives *)
}.

Definition set_nodes (f : gmap (list string) inode → gmap (list string) inode) (w : World) : World :=
  {| nodes := f (nodes w); readonly := readonly w; cwd := cwd w;
     stdout := stdout w; interrupt_in := interrupt_in w |}.

Definition set_stdout (f : list string → list string) (w : World) : World :=
  {| nodes := nodes w; readonly := readonly w; cwd := cwd w;
     stdout := f (stdout w); interrupt_in := interrupt_in w |}.

Definition set_interrupt (i : option nat) (w : World) : World :=
  {| nodes := nodes w; readonly := readonly w; cwd := cwd w;
     stdout := stdout w; interrupt_in := i |}.

(** Effectful Python code: a state-and-exception monad over the world. *)
Definition M (A : Type) : Type := World → result A * World.

Definition ret {A} (a : A) : M A := λ w, (Ok a, w).

Definition bind {A B} (m : M A) (f : A → M B) : M B := λ w,
  match m w with
  | (Ok a, w') => f a w'
  | (Raise e, w') => (Raise e, w')
  end.

Notation "x <- m ;; k" := (bind m (λ x, k))
  (at level 100, m at next level, right associativity).
Notation "m ;; k" := (bind m (λ _, k))
  (at level 100, right associativity).

Definition raise {A} (e : exn) : M A := λ w, (Raise e, w).
Definition lift {A} (r : result A) : M A := λ w, (r, w).

(** [try: body except <catch> as e: handler e] *)
Definition try_except {A} (body : M A) (catch : exn → bool) (handler : exn → M A) : M A :=
  λ w, match body w with
       | (Raise e, w') => if catch e then handler e w' else (Raise e, w')
       | r => r
       end.

(** [print(line)] *)
Definition print (line : string) : M unit :=
  λ w, (Ok (), set_stdout (λ out, out ++ [line]) w).

(** One file-system mutation is about to happen: deliver the pending
    interrupt if it is due. *)
Definition tick : M unit := λ w,
  match interrupt_in w with
  | None => (Ok (), w)
  | Some (S n) => (Ok (), set_interrupt (Some n) w)
  | Some 0 => (Raise KeyboardInterrupt, set_interrupt None w)
  end.

(** ** pathlib and shutil, over the world *)

Module pathlib.

Inductive Path :=
  | Abs (parts : list string)    (* anchored at the root directory *)
  | Rel (parts : list string).   (* relative to the working directory *)

Definition parts (p : Path) : list string :=
  match p with Abs l | Rel l => l end.

Definition with_parts (p : Path) (l : list string) : Path :=
  match p with Abs _ => Abs l | Rel _ => Rel l end.

(** [Path()] *)
Definition Path_here : Path := Rel [].

(** [Path(s)]: empty and ["."] components are dropped. *)
Definition Path_of (s : string) : Path :=
  let l := filter (λ x, x ≠ "" ∧ x ≠ ".") (pystr.split_slash s) in
  if pystr.startswith "/" s then Abs l else Rel l.

(** [p / s] *)
Definition joinpath (p : Path) (s : string) : Path :=
  match Path_of s with
  | Abs l => Abs l
  | Rel l => with_parts p (parts p ++ l)
  end.

(** [str(p)] *)
Definition fspath (p : Path) : string :=
  match p with
  | Abs l => "/" +:+ String.concat "/" l
  | Rel [] => "."
  | Rel l => String.concat "/" l
  end.

(** [p.name] *)
Definition name (p : Path) : string := default "" (last (parts p)).

(** [p.parent] *)
Definition parent (p : Path) : Path := with_parts p (removelast (parts p)).

(** [p.with_name(n)] for a path with a name. *)
Definition with_name (p : Path) (n : string) : Path :=
  with_parts p (removelast (parts p) ++ [n]).

(** Stem and suffix of a file name: the name is cut at its last dot when
    that dot is neither its first nor its last character. *)
Definition splitext (n : string) : string * string :=
  match pystr.rsplit_dot n with
  | Some (a, b) =>
      if bool_decide (a = "") || bool_decide (b = "") then (n, "")
      else (a, "." +:+ b)
  | None => (n, "")
  end.

(** [p.suffix] *)
Definition suffix (p : Path) : string := snd (splitext (name p)).

(** [p.stem] *)
Definition stem (p : Path) : string := fst (splitext (name p)).

Definition valid_suffix (s : string) : bool :=
  bool_decide (s = "") || (pystr.startswith "." s && (1 <? String.length s)).

(** [p.with_suffix(s)] *)
Definition with_suffix (p : Path) (s : string) : result Path :=
  if bool_decide (name p = "")
  then Raise (ValueError (fspath p +:+ " has an empty name"))
  else if valid_suffix s then Ok (with_name p (stem p +:+ s))
  else Raise (ValueError ("Invalid suffix " +:+ s)).

(** The key of a path in the world's file table. *)
Definition key (w : World) (p : Path) : list string :=
  match p with Abs l => l | Rel l => cwd w ++ l end.

Definition stat_key (w : World) (k : list string) : option inode :=
  match k with [] => Some Dir | _ => nodes w !! k end.

Definition stat (w : World) (p : Path) : option inode := stat_key w (key w p).


(** [p.expanduser().resolve()]: the absolute path ([~], [..] and symbolic
    links are not modelled). *)
Definition resolve (p : Path) : M Path := λ w, (Ok (Abs (key w p)), w).

(** [p.exists()] *)
Definition exists_ (p : Path) : M bool := λ w, (Ok (bool_decide (is_Some (stat w p))), w).

(** [p.is_file()] *)
Definition is_file (p : Path) : M bool := λ w,
  (Ok (match stat w p with Some (File _) => true | _ => false end), w).

(** [p.read_text()] *)
Definition read_text (p : Path) : M string := λ w,
  match stat w p with
  | Some (File c) => (Ok c, w)
  | Some Dir => (Raise (OSError EISDIR (fspath p)), w)
  | None => (Raise (OSError ENOENT (fspath p)), w)
  end.

(** May the path be created or opened for writing? *)
Definition check_writable (w : World) (p : Path) : result () :=
  let k := key w p in
  match stat_key w k with
  | Some Dir => Raise (OSError EISDIR (fspath p))
  | _ =>
      if bool_decide (k ∈ readonly w) then Raise (OSError EACCES (fspath p))
      else match stat_key w (removelast k) with
           | Some Dir => Ok ()
           | Some (File _) => Raise (OSError ENOTDIR (fspath p))
           | None => Raise (OSError ENOENT (fspath p))
           end
  end.

(** The modes of [open] that allow writing. *)
Inductive open_mode := mode_w | mode_a | mode_x.

(** [p.open(mode)]: ["w"] creates or truncates, ["a"] creates or keeps,
    ["x"] creates and refuses an existing file. *)
Definition open_ (p : Path) (mode : open_mode) : M () :=
  tick ;; λ w,
    match check_writable w p with
    | Raise e => (Raise e, w)
    | Ok _ =>
        match mode, stat w p with
        | mode_a, Some (File _) => (Ok (), w)
        | mode_x, Some _ => (Raise (OSError EEXIST (fspath p)), w)
        | _, _ => (Ok (), set_nodes <[key w p := File ""]> w)
        end
    end.

(** One character reaches the open file. *)
Definition write_char (p : Path) (c : ascii) : M () :=
  tick ;; λ w,
    match stat w p with
    | Some (File s) => (Ok (), set_nodes <[key w p := File (s +:+ String c "")]> w)
    | _ => (Raise (OSError ENOENT (fspath p)), w)
    end.

(** [fp.write(content)] on the file opened at [p]. *)
Fixpoint write (p : Path) (content : string) : M () :=
  match content with
  | EmptyString => ret ()
  | String c r => write_char p c ;; write p r
  end.

(** [p.write_text(content)] *)
Definition write_text (p : Path) (content : string) : M () :=
  open_ p mode_w ;; write p content.

(** [os.mkdir] of one directory, tolerating an existing one; a regular
    file in the way is reported as [FileExistsError] wherever it stands. *)
Definition mkdir_one (k : list string) : M () := λ w,
  match stat_key w k with
  | Some Dir => (Ok (), w)
  | Some (File _) => (Raise (OSError EEXIST (fspath (Abs k))), w)
  | None =>
      if bool_decide (k ∈ readonly w) then (Raise (OSError EACCES (fspath (Abs k))), w)
      else (tick ;; λ w', (Ok (), set_nodes <[k := Dir]> w')) w
  end.

Fixpoint mkdir_chain (done todo : list string) : M () :=
  match todo with
  | [] => ret ()
  | c :: todo' => mkdir_one (done ++ [c]) ;; mkdir_chain (done ++ [c]) todo'
  end.

(** [p.mkdir(parents=True, exist_ok=True)] *)
Definition mkdir (p : Path) : M () := λ w, mkdir_chain [] (key w p) w.

(** [src.replace(dst)] ([os.replace]) for a regular file [src]: one atomic
    step. *)
Definition replace (src dst : Path) : M () :=
  tick ;; λ w,
    match stat w src with
    | None => (Raise (OSError ENOENT (fspath src)), w)
    | Some Dir => (Raise (OSError EISDIR (fspath src)), w)
    | Some (File c) =>
        match stat w dst with
        | Some Dir => (Raise (OSError EISDIR (fspath dst)), w)
        | _ =>
            match stat_key w (removelast (key w dst)) with
            | Some Dir =>
                (Ok (), set_nodes (λ m, <[key w dst := File c]> (delete (key w src) m)) w)
            | _ => (Raise (OSError ENOENT (fspath dst)), w)
            end
        end
    end.

End pathlib.

Module shutil.
Import pathlib.

(** [shutil.copy(src, dst)]: a directory [dst] receives the file under the
    name of [src]; the source is opened first, the destination is then
    written from its start. *)
Definition copy (src dst : Path) : M () := λ w,
  let dst' := match stat w dst with
              | Some Dir => joinpath dst (name src)
              | _ => dst
              end in
  if bool_decide (key w src = key w dst')
  then (Raise (OSError ESAMEFILE (fspath src)), w)
  else match stat w src with
       | None => (Raise (OSError ENOENT (fspath src)), w)
       | Some Dir => (Raise (OSError EISDIR (fspath src)), w)
       | Some (File c) => write_text dst' c w
       end.

End shutil.

(** ** file_generator.py *)

Module file_generator.
Import pathlib.

(** [write_file(target, content, mode="w")] *)
Definition write_file (target : Path) (content : string) (mode : open_mode) : M Path :=
  target <- resolve target ;;
  try_except
    (mkdir (parent target) ;;
     tmp <- lift (with_suffix target ".tmp") ;;
     open_ tmp mode ;;
     write tmp content ;;
     replace tmp target ;;
     ret target)
    is_OSError
    (λ exc, raise (CodeAgentError
       ("Failed to write file " +:+ fspath target +:+ ": " +:+ str exc))).

End file_generator.

(** ** tools/edit_file_tool.py *)

Module edit_file_tool.
Import pathlib.

(** The artifact of a tool invocation. *)
Record FileObject := mkFileObject {
  path : Path;
  contents : string;
  status : string
}.

(** Calls of [log.info] and [log.error] have no effect on the world and
    are left out. *)
Definition _backup_file (path : Path) : M string :=
  e <- exists_ path ;;
  if negb e then ret "no_backup"
  else
    backup_path <- lift (with_suffix path (suffix path +:+ ".bak")) ;;
    try_except
      (shutil.copy path backup_path ;; ret "backup_created")
      is_Exception
      (λ _, ret "backup_failed").

Definition _edit_replace (path : Path) (content : string) : M () :=
  write_text path content.

Definition _edit_append (path : Path) (content : string) : M () :=
  original_content <- read_text path ;;
  write_text path (original_content +:+ content).

Definition start_marker : string := "<!-- AUTOGEN START -->".
Definition end_marker : string := "<!-- AUTOGEN END -->".

Definition _edit_patch (path : Path) (content : string) : M () :=
  original_content <- read_text path ;;
  new_full <-
    (if pystr.contains start_marker original_content
        && pystr.contains end_marker original_content
     then
       pr <- lift (pystr.unpack2 (pystr.split1 start_marker original_content)) ;;
       xp <- lift (pystr.unpack2 (pystr.split1 end_marker (snd pr))) ;;
       ret (fst pr +:+ start_marker +:+ pystr.nl +:+ content +:+ pystr.nl
            +:+ end_marker +:+ snd xp)
     else ret (original_content +:+ pystr.nl +:+ content)) ;;
  write_text path new_full.

(** The dictionary [edit_functions] and its key test. *)
Definition edit_functions (mode : string) : option (Path → string → M ()) :=
  if bool_decide (mode = "replace") then Some _edit_replace
  else if bool_decide (mode = "append") then Some _edit_append
  else if bool_decide (mode = "patch") then Some _edit_patch
  else None.

Definition error_object (p : Path) : FileObject :=
  {| path := p; contents := ""; status := "error" |}.

(** [EditFileTool._run(file_path, new_content, mode)] of the tool rooted at
    [root]. *)
Definition _run (root : Path) (file_path new_content mode : string)
    : M (string * FileObject) :=
  let full_path := joinpath root file_path in
  e <- exists_ full_path ;;
  if negb e
  then ret ("❌ File not found: " +:+ fspath full_path, error_object full_path)
  else
    try_except
      (backup_status <- _backup_file full_path ;;
       match edit_functions mode with
       | None => ret ("❌ Unknown mode: " +:+ mode, error_object full_path)
       | Some edit =>
           edit full_path new_content ;;
           let status := "edited_" +:+ mode in
           final_contents <- read_text full_path ;;
           let message := "✅ Successfully " +:+ status +:+ " " +:+ fspath full_path in
           let message :=
             if bool_decide (backup_status = "backup_failed")
             then message +:+ " (⚠️ Backup failed!)" else message in
           ret (message,
                {| path := full_path; contents := final_contents; status := status |})
       end)
      is_Exception
      (λ e, ret ("❌ Error editing file: " +:+ str e, error_object full_path)).

End edit_file_tool.

(** ** tools/new_file_tool.py *)

Module new_file_tool.
Import pathlib.
Import edit_file_tool.

(** [NewFileTool._run(file_path, content, overwrite=False)] *)
Definition _run (root : Path) (file_path content : string) (overwrite : bool)
    : M (string * FileObject) :=
  if bool_decide (file_path = "")
  then ret ("❌ Error: 'file_path' cannot be empty.", error_object Path_here)
  else
    let full_path := joinpath root file_path in
    try_except
      (e <- exists_ full_path ;;
       if e && negb overwrite
       then ret ("❌ File already exists: " +:+ fspath full_path
                 +:+ ". Use 'overwrite=True' to replace it.", error_object full_path)
       else
         backup_status <-
           (if e then
              backup_path <- lift (with_suffix full_path (suffix full_path +:+ ".bak")) ;;
              try_except
                (shutil.copy full_path backup_path ;; ret "backup_created")
                is_Exception
                (λ _, ret "backup_failed")
            else ret "no_backup") ;;
         mkdir (parent full_path) ;;
         write_text full_path content ;;
         let message := "✅ Successfully created " +:+ fspath full_path in
         let message :=
           if bool_decide (backup_status = "backup_failed")
           then message +:+ " (⚠️ Backup failed!)"
           else if bool_decide (backup_status = "backup_created")
           then message +:+ " (Original backed up)"
           else message in
         ret (message,
              {| path := full_path; contents := content; status := "created" |}))
      is_Exception
      (λ e, ret ("❌ Error creating file: " +:+ str e, error_object full_path)).

End new_file_tool.

(** ** tools/read_file_tool.py *)

Module read_file_tool.
Import pathlib.

(** [ReadFileTool._run(file_path)] *)
Definition _run (root : Path) (file_path : string) : M string :=
  if bool_decide (file_path = "")
  then ret "❌ Error: 'file_path' cannot be empty."
  else
    let full_path := joinpath root file_path in
    e <- exists_ full_path ;;
    if negb e
    then ret ("❌ Error: File not found at " +:+ fspath full_path)
    else
      f <- is_file full_path ;;
      if negb f
      then ret ("❌ Error: Path exists but is not a file: " +:+ fspath full_path)
      else
        try_except
          (content <- read_text full_path ;;
           ret ("Content of " +:+ file_path +:+ ":" +:+ pystr.nl +:+ pystr.nl
                +:+ "---" +:+ pystr.nl +:+ content +:+ pystr.nl +:+ "---"))
          is_Exception
          (λ e, ret ("❌ Error reading file: " +:+ str e)).

End read_file_tool.

(** ** tools/notebook_tool.py *)

Module notebook_tool.
Import pathlib.
Import edit_file_tool.

Section nbformat.
(** A notebook, as far as the tool builds one: the sources of its markdown
    cells.  [nbformat.writes] and [nbformat.reads] are the library's
    serialiser and parser. *)
Variable nb_writes : list string → string.
Variable nb_reads : string → result (list string).

(** [nbformat.write(nb, str(path))] opens the path for writing and writes
    the serialised notebook. *)
Definition nbformat_write (nb : list string) (p : Path) : M () :=
  write_text p (nb_writes nb).

(** [nbformat.read(str(path), as_version=4)] *)
Definition nbformat_read (p : Path) : M (list string) :=
  text <- read_text p ;; lift (nb_reads text).

(** [NotebookTool._run(file_path, content="", mode="create")] *)
Definition _run (root : Path) (file_path content mode : string) : M (string * FileObject) :=
  let nb_path := joinpath root file_path in
  try_except
    (if bool_decide (mode = "create") then
       let nb := [content] in
       mkdir (parent nb_path) ;;
       nbformat_write nb nb_path ;;
       ret ("✅ Created notebook " +:+ fspath nb_path,
            {| path := nb_path; contents := content; status := "created" |})
     else if bool_decide (mode = "append") then
       e <- exists_ nb_path ;;
       if negb e
       then ret ("❌ Notebook not found: " +:+ fspath nb_path, error_object nb_path)
       else
         nb <- nbformat_read nb_path ;;
         nbformat_write (nb ++ [content]) nb_path ;;
         ret ("✅ Appended notebook " +:+ fspath nb_path,
              {| path := nb_path; contents := content; status := "appended" |})
     else if bool_decide (mode = "replace") then
       try_except
         (nb_obj <- lift (nb_reads content) ;; nbformat_write nb_obj nb_path)
         is_Exception
         (λ _, let nb := [content] in
               mkdir (parent nb_path) ;; nbformat_write nb nb_path) ;;
       ret ("✅ Replaced notebook " +:+ fspath nb_path,
            {| path := nb_path; contents := content; status := "replaced" |})
     else ret ("❌ Unknown mode: " +:+ mode, error_object nb_path))
    is_Exception
    (λ e, ret ("❌ Notebook operation failed: " +:+ str e, error_object nb_path)).

End nbformat.
End notebook_tool.

(** ** Vocabulary of the statements *)


(** A world [w'] reached from [w] by steps that leave the node at [k]
    alone. *)
Definition kept (k : list string) (w w' : World) : Prop :=
  nodes w' !! k = nodes w !! k.


(** The result of a tool that returns text and artifact has error status
    when the artifact's status tag is ["error"]. *)
Definition is_error_result (r : string * edit_file_tool.FileObject) : bool :=
  bool_decide (edit_file_tool.status (snd r) = "error").

(** ** agents/base_agent.py: the tool registry *)

Module base_agent.
Import pathlib.

(** The tool instances [create_default_tools] builds; [L] is the type of
    model handles. *)
Inductive BaseTool (L : Type) :=
  | ReadFileTool (root_dir : Path)
  | EditFileTool (root_dir : Path)
  | SearchExplainTool (root_dir : Path) (llm_instance : L)
  | LinkerTool (root_dir : Path)
  | NewFileTool (root_dir : Path)
  | GenerateTestTool (root_dir : Path) (llm_instance : L)
  | FormatCodeTool (root_dir : Path)
  | NotebookTool (root_dir : Path) (llm_instance : L)
  | GeneralChatTool (llm_instance : L)
  | RScriptTool.
Global Arguments ReadFileTool {L} _.
Global Arguments EditFileTool {L} _.
Global Arguments SearchExplainTool {L} _ _.
Global Arguments LinkerTool {L} _.
Global Arguments NewFileTool {L} _.
Global Arguments GenerateTestTool {L} _ _.
Global Arguments FormatCodeTool {L} _.
Global Arguments NotebookTool {L} _ _.
Global Arguments GeneralChatTool {L} _.
Global Arguments RScriptTool {L}.

(** The class attribute [name] of each tool. *)
Definition name {L} (t : BaseTool L) : string :=
  match t with
  | ReadFileTool _ => "read-file"
  | EditFileTool _ => "edit-file"
  | SearchExplainTool _ _ => "search-explain"
  | LinkerTool _ => "linker"
  | NewFileTool _ => "new-file"
  | GenerateTestTool _ _ => "generate-test"
  | FormatCodeTool _ => "format-code"
  | NotebookTool _ _ => "notebook"
  | GeneralChatTool _ => "general-chat"
  | RScriptTool => "r-script"
  end.




End base_agent.

(** ** json *)

Module json.

#[local] Set Warnings "-register-all".

Inductive value :=
  | Null
  | Bool (b : bool)
  | Number (repr : string)
  | Str (s : string)
  | Array (items : list value)
  | Object (members : list (string * value)).

Definition quote : string := String (ascii_of_nat 34) "".

Definition hex_digit (n : nat) : string :=
  String.substring n 1 "0123456789abcdef".

(** One character of [py_encode_basestring_ascii]; exact on ASCII text, a
    character outside ASCII is escaped byte by byte. *)
Definition escape_char (c : ascii) : string :=
  let n := nat_of_ascii c in
  if n =? 34 then "\" +:+ quote
  else if n =? 92 then "\\"
  else if n =? 8 then "\b"
  else if n =? 12 then "\f"
  else if n =? 10 then "\n"
  else if n =? 13 then "\r"
  else if n =? 9 then "\t"
  else if (32 <=? n) && (n <=? 126) then String c ""
  else "\u00" +:+ hex_digit (n / 16) +:+ hex_digit (n mod 16).

Fixpoint escape (s : string) : string :=
  match s with
  | EmptyString => EmptyString
  | String c r => escape_char c +:+ escape r
  end.

Definition encode_basestring_ascii (s : string) : string :=
  quote +:+ escape s +:+ quote.

(** [json.dumps(v)] with the default separators. *)
Fixpoint dumps (v : value) : string :=
  match v with
  | Null => "null"
  | Bool true => "true"
  | Bool false => "false"
  | Number r => r
  | Str s => encode_basestring_ascii s
  | Array l => "[" +:+ String.concat ", " (map dumps l) +:+ "]"
  | Object l =>
      "{" +:+ String.concat ", "
                (map (λ kv, match kv with
                            | (k, x) => encode_basestring_ascii k +:+ ": " +:+ dumps x
                            end) l) +:+ "}"
  end.

(** [d.get(key, default)] on a parsed value: only a dictionary has [get]. *)
Definition get (d : value) (key : string) (default : value) : result value :=
  match d with
  | Object l =>
      Ok (match list_find (λ kv, fst kv = key) (reverse l) with
          | Some (_, (_, x)) => x
          | None => default
          end)
  | _ => Raise (AttributeError "object has no attribute 'get'")
  end.

End json.

(** ** main.py: [create_llm] and its fallback model *)

Module main.
Import graph.

Section create_llm.
Context {T : Type}.

(** The external backend: [from langchain_ollama import ChatOllama] followed
    by [ChatOllama(model=..., base_url=..., temperature=...)], which yields a
    chat model or raises. *)
Variable ChatOllama : string → string → string → result (BaseChatModel T).

(** [cfg.get(key, default)]; configuration values are kept as text. *)
Definition cfg_get (cfg : gmap string string) (key fallback : string) : string :=
  default fallback (cfg !! key).

(** The instance attributes of [_FallbackLLM]. *)
Record _FallbackLLM := mkFallback { _err : exn; _base_url : string }.

(** The text [json.dumps({"error": ..., "details": ...})] of the fallback
    answer. *)
Definition fallback_content (exc : exn) (url : string) : string :=
  json.dumps (json.Object
    [("error", json.Str "LLM unavailable");
     ("details", json.Str ("Failed to initialise ChatOllama. Error: " +:+ str exc
                           +:+ ". Base URL: " +:+ url +:+ "."))]).

(** [_FallbackLLM._generate(messages)]: the messages of the generations of
    the [ChatResult] it returns. *)
Definition _generate (self : _FallbackLLM) (messages : list BaseMessage) : list BaseMessage :=
  let content := fallback_content (_err self) (_base_url self) in
  [AIMessage content []].

(** [BaseChatModel.invoke] hands back the message of the first generation. *)
Definition fallback_invoke (self : _FallbackLLM) : Runnable := λ messages,
  match _generate self messages with
  | m :: _ => Ok m
  | [] => Raise (IndexError "list index out of range")
  end.

(** [_FallbackLLM.bind_tools] returns [self]. *)
Definition fallback_model (self : _FallbackLLM) : BaseChatModel T :=
  {| bind_tools := λ _, fallback_invoke self |}.

(** [base_url = f"{scheme}://{host}:{port}"] *)
Definition base_url (cfg : gmap string string) : string :=
  let scheme := cfg_get cfg "ollama_scheme" "http" in
  let host := cfg_get cfg "ollama_host" "localhost" in
  let port := cfg_get cfg "ollama_port" "11434" in
  scheme +:+ "://" +:+ host +:+ ":" +:+ port.

(** [create_llm(cfg)] *)
Definition create_llm (cfg : gmap string string) : result (BaseChatModel T) :=
  let model := cfg_get cfg "ollama_model" "gpt-oss:20b-cloud" in
  let temperature := cfg_get cfg "temperature" "0.7" in
  match ChatOllama model (base_url cfg) temperature with
  | Ok llm => Ok llm
  | Raise exc =>
      if is_Exception exc then Ok (fallback_model (mkFallback exc (base_url cfg)))
      else Raise exc
  end.

End create_llm.
End main.

(** ** cli.py: the interactive chat session *)

Module cli.

(** An entry of [conversation_state["messages"]]: the shell appends
    [(role, text)] tuples, the agent hands back message objects. *)
Inductive entry :=
  | Tuple (role text : string)
  | Message (m : BaseMessage).

(** The dictionary [{"messages": [...]}]. *)
Record state := mkState { messages : list entry }.

(** What [agent.invoke] returns: a dictionary with a ["messages"] key, or
    anything else (shown through [str]). *)
Inductive response :=
  | StateDict (s : state)
  | Other (shown : string).

Section chat.
(** [(tool.name, tool.description)] of the registered tools. *)
Variable tools : list (string * string).
(** [agent.invoke(conversation_state)] *)
Variable agent_invoke : state → M response.

(** [_handle_command(user_input, conversation_state, tools)]; the second
    component is an optional state ([None] in Python). *)
Definition _handle_command (user_input : string) (conversation_state : option state)
    : M (bool * option state) :=
  if bool_decide (pystr.lower user_input ∈ ["exit"; "quit"; "q"])
  then print (pystr.nl +:+ "Goodbye!") ;; ret (false, conversation_state)
  else if bool_decide (pystr.lower user_input = "help")
  then
    print (pystr.nl +:+ "Available commands:") ;;
    print "- help: Show this help message" ;;
    print "- exit/quit/q: End the session" ;;
    print "- clear: Clear the conversation history" ;;
    print "- tools: List available tools" ;;
    print (pystr.nl +:+ "You can also type natural language requests and the agent will try to help you.") ;;
    ret (true, None)
  else if bool_decide (pystr.lower user_input = "clear")
  then print ("Conversation history cleared." +:+ pystr.nl) ;; ret (true, None)
  else if bool_decide (pystr.lower user_input = "tools")
  then
    print (pystr.nl +:+ "Available tools:") ;;
    foldr (λ tool k, print ("- " +:+ fst tool +:+ ": " +:+ pystr.strip (snd tool)) ;; k)
          (ret ()) tools ;;
    print "" ;;
    ret (true, None)
  else if bool_decide (user_input = "")
  then ret (true, None)
  else ret (true, conversation_state).

Definition rule : string := "==================================================".

Definition is_assistant_tuple (e : entry) : bool :=
  match e with
  | Tuple role _ => bool_decide (role ∈ ["ai"; "assistant"])
  | Message _ => false
  end.

(** The first entry of [reversed(messages)] that is a tuple tagged ["ai"]
    or ["assistant"], if any. *)
Definition last_assistant_text (msgs : list entry) : option string :=
  match List.find is_assistant_tuple (reverse msgs) with
  | Some (Tuple _ text) => Some text
  | _ => None
  end.

(** [_display_agent_response(response, conversation_state)] *)
Definition _display_agent_response (r : response) (conversation_state : state) : M state :=
  match r with
  | StateDict s =>
      print (pystr.nl +:+ rule) ;;
      print "🛠️  Agent response:" ;;
      match last_assistant_text (messages s) with
      | Some text => print text
      | None => ret ()
      end ;;
      print (rule +:+ pystr.nl) ;;
      ret s
  | Other shown =>
      print (pystr.nl +:+ rule) ;;
      print "🛠️  Agent response:" ;;
      print shown ;;
      print (rule +:+ pystr.nl) ;;
      ret conversation_state
  end.

(** One pass through the body of the [while True] loop of [chat] on the
    line [input] returned.  The first result tells whether the loop goes on;
    the last lists the states handed to [agent.invoke] so far.  Only
    [agent.invoke] can raise here, so the two outer handlers of the loop
    ([KeyboardInterrupt]: leave the loop; [Exception]: go on) are placed
    around it. *)
Definition turn (line : string) (conversation_state : option state)
    (invoked : list state) : M (bool * (option state * list state)) :=
  let user_input := pystr.strip line in
  r <- _handle_command user_input conversation_state ;;
  let cont := fst r in
  let conversation_state := snd r in
  if negb cont then ret (false, (conversation_state, invoked))
  else
    match conversation_state with
    | None => ret (true, (None, invoked))
    | Some cs =>
        let cs := {| messages := messages cs ++ [Tuple "human" user_input] |} in
        print (pystr.nl +:+ "🤖 Thinking...") ;;
        try_except
          (cs' <- try_except
                    (response <- agent_invoke cs ;;
                     _display_agent_response response cs)
                    is_Exception
                    (λ e, print (pystr.nl +:+ "❌ Error processing your request: "
                                 +:+ str e +:+ pystr.nl) ;; ret cs) ;;
           ret (true, (Some cs', invoked ++ [cs])))
          (λ e, negb (is_Exception e))
          (λ _, print (pystr.nl +:+ pystr.nl +:+ "👋 Session ended by user. Goodbye!") ;;
                ret (false, (Some cs, invoked ++ [cs])))
    end.

(** The loop of [chat] over the lines typed; it ends when a command or an
    interrupt ends the session, or when the lines run out. *)
Fixpoint chat_loop (lines : list string) (conversation_state : option state)
    (invoked : list state) : M (option state * list state) :=
  match lines with
  | [] => ret (conversation_state, invoked)
  | line :: lines' =>
      r <- turn line conversation_state invoked ;;
      if fst r then chat_loop lines' (fst (snd r)) (snd (snd r))
      else ret (snd r)
  end.

(** The session as [chat] starts it: [conversation_state = {"messages": []}]. *)
Definition chat (lines : list string) : M (option state * list state) :=
  chat_loop lines (Some {| messages := [] |}) [].

End chat.
End cli.

(** ** agents/persistent_agent.py *)

Module persistent_agent.
Import pathlib.

(** The instance attributes that persist: [conversation_history] starts as
    [[]] and [settings] as [{}]; loading assigns whatever the file holds. *)
Record PersistentAgent := mkAgent {
  conversation_history : json.value;
  settings : json.value
}.

(** The warnings [_load_state] and [_save_state] print. *)
Definition load_warning (e : exn) : string := "⚠️  Warning: Could not load state: " +:+ str e.
Definition save_warning (e : exn) : string := "⚠️  Warning: Could not save state: " +:+ str e.

(** [__init__] before [_load_state]. *)
Definition fresh : PersistentAgent :=
  {| conversation_history := json.Array []; settings := json.Object [] |}.

Section agent.
(** [Path.home()] *)
Variable home : list string.
(** [json.load]: the parsed text, or [JSONDecodeError]. *)
Variable json_loads : string → result json.value.
(** [json.dump(data, f, indent=2)]: the text written. *)
Variable json_dumps_indent : json.value → result string.
(** [self.agent.invoke({"input": ..., "chat_history": ...})] followed by
    [response.get("output", str(response))]. *)
Variable agent_invoke : string → json.value → M string.

Definition _state_file : Path := Abs (home ++ [".code_agent"; "state.json"]).

Definition _ensure_state_dir : M () := mkdir (parent _state_file).

(** [_load_state].  Once the first [data.get] has returned, [data] is a
    dictionary and the second cannot raise, so the handler always finds the
    attributes as they were on entry. *)
Definition _load_state (self : PersistentAgent) : M PersistentAgent :=
  _ensure_state_dir ;;
  e <- exists_ _state_file ;;
  if e then
    try_except
      (text <- read_text _state_file ;;
       data <- lift (json_loads text) ;;
       history <- lift (json.get data "conversation_history" (json.Array [])) ;;
       sett <- lift (json.get data "settings" (json.Object [])) ;;
       ret {| conversation_history := history; settings := sett |})
      is_Exception
      (λ e, print (load_warning e) ;; ret self)
  else ret self.

(** [_save_state] *)
Definition _save_state (self : PersistentAgent) : M () :=
  _ensure_state_dir ;;
  try_except
    (let data := json.Object [("conversation_history", conversation_history self);
                              ("settings", settings self)] in
     open_ _state_file mode_w ;;
     text <- lift (json_dumps_indent data) ;;
     write _state_file text)
    is_Exception
    (λ e, print (save_warning e)).

(** [history.append({"role": role, "content": content})]: only a list has
    [append]. *)
Definition append_entry (history : json.value) (role content : string) : result json.value :=
  match history with
  | json.Array l =>
      Ok (json.Array (l ++ [json.Object [("role", json.Str role);
                                         ("content", json.Str content)]]))
  | _ => Raise (AttributeError "object has no attribute 'append'")
  end.

Definition with_history (self : PersistentAgent) (h : json.value) : PersistentAgent :=
  {| conversation_history := h; settings := settings self |}.

(** The [except Exception as e] branch of [chat], entered with the history
    as it stands. *)
Definition chat_failed (self : PersistentAgent) (e : exn) : M (string * PersistentAgent) :=
  let error_msg := "❌ Error: " +:+ str e in
  h <- lift (append_entry (conversation_history self) "error" error_msg) ;;
  _save_state (with_history self h) ;;
  ret (error_msg, with_history self h).

(** [chat(message)]: the reply and the agent as the call leaves it.  The
    attribute [self.agent] is set by [__init__] and never empty, so the
    first test of the method is left out. *)
Definition chat (self : PersistentAgent) (message : string) : M (string * PersistentAgent) :=
  h1 <- lift (append_entry (conversation_history self) "user" message) ;;
  let self1 := with_history self h1 in
  r <- try_except
         (response_content <- agent_invoke message h1 ;; ret (inl response_content))
         is_Exception (λ e, ret (inr e)) ;;
  match r with
  | inr e => chat_failed self1 e
  | inl response_content =>
      try_except
        (h2 <- lift (append_entry h1 "assistant" response_content) ;;
         _save_state (with_history self h2) ;;
         ret (response_content, with_history self h2))
        is_Exception
        (λ e, h2 <- lift (append_entry h1 "assistant" response_content) ;;
              chat_failed (with_history self h2) e)
  end.

(** [__init__]: fresh attributes, then [_load_state]. *)
Definition init : M PersistentAgent := _load_state fresh.

End agent.
End persistent_agent.

(** ** core.py *)

Module core.
Import pathlib.

(** [create_file(path, content, overwrite=False)] *)
Definition create_file (path : Path) (content : string) (overwrite : bool) : M Path :=
  path <- resolve path ;;
  e <- exists_ path ;;
  if e && negb overwrite
  then raise (CodeAgentError ("File " +:+ fspath path
                              +:+ " already exists – use overwrite=True to replace it"))
  else file_generator.write_file path content mode_w.

(** [append_file(path, content)]: the file is opened in mode ["a"]. *)
Definition append_file (path : Path) (content : string) : M Path :=
  path <- resolve path ;;
  e <- exists_ path ;;
  if negb e
  then raise (CodeAgentError ("File " +:+ fspath path +:+ " does not exist – cannot append"))
  else open_ path mode_a ;; write path content ;; ret path.

End core.

(** ** cli.py: the file commands *)

Module cli_commands.
Import pathlib.

(** [typer.echo(line)] *)
Definition echo (line : string) : M () := print line.

(** The command [create]. *)
Definition create (file_path : Path) (content : string) (overwrite : bool) : M () :=
  try_except
    (e <- exists_ file_path ;;
     if e && negb overwrite
     then raise (CodeAgentError ("File '" +:+ fspath file_path
                                 +:+ "' already exists. Use --overwrite to replace."))
     else
       file_generator.write_file file_path content mode_w ;;
       echo ("File written: " +:+ fspath file_path))
    is_Exception
    (λ exc, raise (CodeAgentError (str exc))).

(** The command [append]. *)
Definition append (file_path : Path) (content : string) : M () :=
  try_except
    (old <- read_text file_path ;;
     write_text file_path (old +:+ content) ;;
     echo ("Appended to: " +:+ fspath file_path))
    is_Exception
    (λ exc, raise (CodeAgentError (str exc))).

End cli_commands.

(** ** main.py: reading the events of a streamed run *)

Module main_loop.

Section events.
(** How Python shows the arguments of a tool call and the output of the
    action node inside an f-string. *)
Variable show_args : list (string * string) → string.
Variable show_output : option (list BaseMessage) → string.

(** [getattr(message, "tool_calls", None)]: only assistant messages have
    the attribute. *)
Definition tool_calls_attr (m : BaseMessage) : option (list ToolCall) :=
  match m with
  | AIMessage _ tcs => Some tcs
  | _ => None
  end.

Definition announce (tool_call : ToolCall) : M () :=
  print ("🛠️  Agent decided to use tool: **" +:+ tc_name tool_call +:+ "**") ;;
  print ("   With arguments: " +:+ show_args (tc_args tool_call)).

(** The loop of [_process_agent_event] over [event.items()]; an output is
    the list under its ["messages"] key, if it has one. *)
Fixpoint process_items (items : list (string * option (list BaseMessage)))
    (final_response : option BaseMessage) : M (option BaseMessage) :=
  match items with
  | [] => ret final_response
  | (node, output) :: items' =>
      if bool_decide (node = "agent") then
        match default [] output with
        | [] => raise (IndexError "list index out of range")
        | agent_response :: _ =>
            match tool_calls_attr agent_response with
            | Some (tc :: tcs) =>
                foldr (λ tool_call k, announce tool_call ;; k) (ret ()) (tc :: tcs) ;;
                process_items items' final_response
            | _ => process_items items' (Some agent_response)
            end
        end
      else if bool_decide (node = "action") then
        print ("✅ Tool output: " +:+ show_output output) ;;
        process_items items' final_response
      else process_items items' final_response
  end.

(** [_process_agent_event(event)] *)
Definition _process_agent_event (event : list (string * option (list BaseMessage)))
    : M (option BaseMessage) :=
  process_items event None.

End events.
End main_loop.

(** ** file_generator.py: from a script to a notebook *)

Module ipynb.
Import pathlib.

(** The line boundaries of [str.splitlines] within ASCII. *)
Definition is_linebreak (c : ascii) : bool :=
  let n := nat_of_ascii c in
  ((10 <=? n) && (n <=? 13)) || ((28 <=? n) && (n <=? 30)).

(** [s.splitlines(True)]: a carriage return followed by a line feed ends
    the line together with it. *)
Fixpoint splitlines (s : string) : list string :=
  match s with
  | EmptyString => []
  | String c r =>
      if is_linebreak c && negb (Ascii.eqb c "013"%char && pystr.startswith pystr.nl r)
      then String c EmptyString :: splitlines r
      else match splitlines r with
           | [] => [String c EmptyString]
           | l :: ls => String c l :: ls
           end
  end.

(** [line.lstrip().startswith("# %%")] *)
Definition is_marker (line : string) : bool :=
  pystr.startswith "# %%" (pystr.lstrip line).

(** [ .join(current)] on the empty separator. *)
Definition join (current : list string) : string := String.concat EmptyString current.

(** The [for] loop of [py_to_ipynb] over the lines, from the cells finished
    so far and the lines of the cell in progress. *)
Fixpoint scan (lines cells current : list string) : list string * list string :=
  match lines with
  | [] => (cells, current)
  | line :: lines' =>
      if is_marker line then
        match current with
        | [] => scan lines' cells []
        | _ => scan lines' (cells ++ [join current]) []
        end
      else scan lines' cells (current ++ [line])
  end.

(** The cells [py_to_ipynb] makes of the text of a script. *)
Definition split_cells (content : string) : list string :=
  let r := scan (splitlines content) [] [] in
  let cells := match snd r with
               | [] => fst r
               | current => fst r ++ [join current]
               end in
  match cells with
  | [] => [pystr.nl]
  | _ => cells
  end.

Section notebook.
(** The text of the notebook for the cells: [nbformat.writes] of the
    notebook built cell by cell, or [json.dumps(..., indent=2)] of the
    hand-made dictionary. *)
Variable nb_text : list string → string.

(** [py_to_ipynb(py_file, output=None)] *)
Definition py_to_ipynb (py_file : Path) (output : option Path) : M Path :=
  py_file <- resolve py_file ;;
  f <- is_file py_file ;;
  if negb f
  then raise (CodeAgentError ("Python file " +:+ fspath py_file +:+ " does not exist"))
  else
    content <- read_text py_file ;;
    let cells := split_cells content in
    let nb := nb_text cells in
    output <- (match output with
               | None => lift (with_suffix py_file ".ipynb")
               | Some o => resolve o
               end) ;;
    try_except
      (file_generator.write_file output nb mode_w ;; ret output)
      is_Exception
      (λ exc, raise (CodeAgentError ("Failed to write notebook " +:+ fspath output
                                     +:+ ": " +:+ str exc))).

End notebook.
End ipynb.

(** ** tools/linker_tool.py *)

Module linker_tool.
Import pathlib.
Import edit_file_tool.

(** [LinkerTool._run(file_path="")] *)
Definition _run (root : Path) (file_path_str : string) : M (string * FileObject) :=
  let file_path := joinpath root file_path_str in
  e <- exists_ file_path ;;
  if negb e
  then ret ("❌ File not found: " +:+ fspath file_path, error_object file_path)
  else
    try_except
      (contents <- read_text file_path ;;
       ret (contents, {| path := file_path; contents := contents; status := "read" |}))
      is_Exception
      (λ e, ret ("❌ Error reading file: " +:+ str e, error_object file_path)).

End linker_tool.

(** ** tools/generate_test_tool.py *)

Module generate_test_tool.
Import pathlib.
Import edit_file_tool.

(** The text of the generated test file. *)
Definition scaffold (module_name : string) : string :=
  pystr.nl +:+ "import pytest" +:+ pystr.nl
  +:+ "from " +:+ module_name +:+ " import *" +:+ pystr.nl
  +:+ pystr.nl +:+ pystr.nl
  +:+ "def test_placeholder():" +:+ pystr.nl
  +:+ "    # Replace this placeholder with meaningful tests for `" +:+ module_name +:+ "`"
  +:+ pystr.nl
  +:+ "    assert True" +:+ pystr.nl.

(** The path [self.root / tests_dir / f"test_{module_name}.py"]. *)
Definition test_file_of (root : Path) (file_path tests_dir : string) : Path :=
  let module_name := stem (Path_of file_path) in
  joinpath (joinpath root tests_dir) ("test_" +:+ module_name +:+ ".py").

(** [GenerateTestTool._run(file_path, tests_dir="tests")] *)
Definition _run (root : Path) (file_path tests_dir : string) : M (string * FileObject) :=
  let src := joinpath root file_path in
  e <- exists_ src ;;
  if negb e
  then ret ("❌ Source file not found: " +:+ fspath src, error_object src)
  else
    let module_name := stem (Path_of file_path) in
    let test_file := test_file_of root file_path tests_dir in
    mkdir (parent test_file) ;;
    e <- exists_ test_file ;;
    if e then
      old <- read_text test_file ;;
      ret ("❌ Test file already exists: " +:+ fspath test_file,
           {| path := test_file; contents := old; status := "exists" |})
    else
      write_text test_file (scaffold module_name) ;;
      ret ("✅ Generated test scaffold: " +:+ fspath test_file,
           {| path := test_file; contents := scaffold module_name; status := "created" |}).

End generate_test_tool.

(** ** agents/base_agent.py: what the registry's tools are rooted at *)

Module registry_roots.
Import pathlib base_agent.

(** The attribute [root] of a tool, for the tools that have one. *)
Definition tool_root {L} (t : BaseTool L) : option Path :=
  match t with
  | ReadFileTool r | EditFileTool r | SearchExplainTool r _ | LinkerTool r
  | NewFileTool r | GenerateTestTool r _ | FormatCodeTool r | NotebookTool r _ => Some r
  | GeneralChatTool _ | RScriptTool => None
  end.

End registry_roots.

(** ** cli.py: the command words *)

(** The words [_handle_command] treats as commands, in any letter case. *)
Definition is_command (user_input : string) : bool :=
  bool_decide (pystr.lower user_input ∈ ["exit"; "quit"; "q"; "help"; "clear"; "tools"]).

(** ** Concrete models and worlds used to exercise the statements *)

Module examples.
Import pathlib.

(** A model that always answers with plain text. *)
Definition hello_model : Runnable := λ _, Ok (AIMessage "Hello, world!" []).

Definition hello_llm : graph.BaseChatModel () :=
  {| graph.bind_tools := λ _, hello_model |}.

(** An action node that leaves the state alone. *)
Definition idle_ToolNode : list () → graph.AgentState → result graph.AgentState :=
  λ _ s, Ok s.

Definition greeting : graph.AgentState :=
  {| graph.messages := [HumanMessage "Say hello"] |}.

(** A backend whose construction always fails. *)
Definition broken_ChatOllama : string → string → string → result (graph.BaseChatModel ()) :=
  λ _ _ _, Raise (RuntimeError "connection refused").

(** A working directory with one note in it. *)
Definition work : World :=
  {| nodes := {[ ["work"] := Dir; ["work"; "notes.md"] := File "old" ]};
     readonly := ∅; cwd := ["work"]; stdout := []; interrupt_in := None |}.

(** The same, with a backup path that cannot be written. *)
Definition work_locked_backup : World :=
  {| nodes := nodes work; readonly := {[ ["work"; "notes.md.bak"] ]};
     cwd := cwd work; stdout := []; interrupt_in := None |}.

(** The same as [work], with an interrupt due at the seventh file-system
    mutation. *)
Definition work_interrupted : World := set_interrupt (Some 6) work.

(** An agent that answers every conversation with one more entry. *)
Definition polite_agent : cli.state → M cli.response := λ s,
  ret (cli.StateDict {| cli.messages := cli.messages s ++ [cli.Tuple "ai" "At your service."] |}).

(** A home directory whose state file does not hold JSON, a parser that
    rejects it, a serialiser and an agent. *)
Definition home_corrupt : World :=
  {| nodes := {[ ["home"] := Dir; ["home"; ".code_agent"] := Dir;
                 ["home"; ".code_agent"; "state.json"] := File "{oops" ]};
     readonly := ∅; cwd := ["home"]; stdout := []; interrupt_in := None |}.


(** A home directory where the name of the state directory is taken by a
    regular file. *)
Definition home_blocked : World :=
  {| nodes := {[ ["home"] := Dir; ["home"; ".code_agent"] := File "" ]};
     readonly := ∅; cwd := ["home"]; stdout := []; interrupt_in := None |}.


Definition strict_loads : string → result json.value := λ text,
  if bool_decide (text = "{}") then Ok (json.Object [])
  else Raise (JSONDecodeError "Expecting property name enclosed in double quotes").

Definition compact_dumps : json.value → result string := λ v, Ok (json.dumps v).

Definition terse_agent : string → json.value → M string := λ _ _, ret "done".

(** A tool call, a model that asks for it every time, and a model that asks
    for it until a tool result is the last message. *)
Definition lookup_call : ToolCall :=
  {| tc_name := "read-file"; tc_args := [("file_path", "notes.md")]; tc_id := "call-1" |}.

Definition eager_model : Runnable := λ _, Ok (AIMessage "" [lookup_call]).

Definition eager_llm : graph.BaseChatModel () :=
  {| graph.bind_tools := λ _, eager_model |}.

Definition one_shot_model : Runnable := λ ms,
  match last ms with
  | Some (ToolMessage _ _ _) => Ok (AIMessage "Here it is." [])
  | _ => Ok (AIMessage "" [lookup_call])
  end.

Definition one_shot_llm : graph.BaseChatModel () :=
  {| graph.bind_tools := λ _, one_shot_model |}.

(** An action node that appends the result of the call. *)
Definition answering_ToolNode : list () → graph.AgentState → result graph.AgentState :=
  λ _ s, Ok {| graph.messages := graph.messages s ++ [ToolMessage "old" "read-file" "call-1"] |}.

(** A page with a generated section between the two markers, and one where
    the end marker stands before the start marker. *)
Definition docs : World :=
  {| nodes := {[ ["docs"] := Dir;
                 ["docs"; "page.md"] :=
                   File "intro<!-- AUTOGEN START -->stale<!-- AUTOGEN END -->outro";
                 ["docs"; "odd.md"] :=
                   File "<!-- AUTOGEN END -->text<!-- AUTOGEN START -->" ]};
     readonly := ∅; cwd := ["docs"]; stdout := []; interrupt_in := None |}.

End examples.

(** * Properties *)

(** ** The control loop *)

Module graph_props.
Import graph.

Lemma last_snoc_msg (l : list BaseMessage) (m : BaseMessage) : last (l ++ [m]) = Some m.
Proof. apply last_snoc. Qed.

Lemma should_continue_snoc (l : list BaseMessage) (m : BaseMessage) :
  should_continue {| messages := l ++ [m] |}
  = Ok (if requests_tools m then action else END).
Proof.
  unfold should_continue; simpl. rewrite last_snoc_msg.
  destruct m as [c|c [|tc tcs]|c n i]; reflexivity.
Qed.


(** On the empty conversation the routing function raises: there is no last
    message to look at. *)
Lemma should_continue_empty :
  should_continue {| messages := [] |} = Raise (IndexError "list index out of range").
Proof. reflexivity. Qed.

Lemma call_llm_ok (state : AgentState) (model : Runnable) (response : BaseMessage) :
  model (messages state) = Ok response →
  call_llm state model = Ok {| messages := messages state ++ [response] |}.
Proof. intros H. unfold call_llm. rewrite H. reflexivity. Qed.

Lemma call_llm_raise (state : AgentState) (model : Runnable) (e : exn) :
  model (messages state) = Raise e → call_llm state model = Raise e.
Proof. intros H. unfold call_llm. rewrite H. reflexivity. Qed.

Lemma call_llm_inv (state s' : AgentState) (model : Runnable) :
  call_llm state model = Ok s' →
  ∃ response, model (messages state) = Ok response
              ∧ s' = {| messages := messages state ++ [response] |}.
Proof.
  unfold call_llm. destruct (model (messages state)) as [r|e]; simpl; [|discriminate].
  intros [= <-]. eauto.
Qed.

(** A run that meets a reply without tool calls at its first visit of the
    agent node stops there, after that one model call. *)
Lemma run_stops_without_tool_calls {T} (ToolNode : list T → AgentState → result AgentState)
    (llm : BaseChatModel T) (tools : list T) (state : AgentState) (response : BaseMessage)
    (fuel calls : nat) :
  bind_tools llm tools (messages state) = Ok response →
  requests_tools response = false →
  run (build_graph ToolNode llm tools) (S fuel) state calls
  = Ok (Finished {| messages := messages state ++ [response] |} (S calls)).
Proof.
  intros Hm Hr. simpl. rewrite (call_llm_ok _ _ _ Hm). simpl.
  rewrite should_continue_snoc, Hr. reflexivity.
Qed.


(** C2.  When the model answers, [call_llm] returns the input messages with
    the one answer appended: every earlier message keeps its position and
    value, the length grows by one, and the new last message is the
    assistant message the model returned. *)
Theorem call_llm_append_only (state : AgentState) (model : Runnable) (response : BaseMessage) :
  chat_model model →
  model (messages state) = Ok response →
  ∃ s', call_llm state model = Ok s'
        ∧ messages s' = messages state ++ [response]
        ∧ length (messages s') = S (length (messages state))
        ∧ (∀ i m, messages state !! i = Some m → messages s' !! i = Some m)
        ∧ take (length (messages state)) (messages s') = messages state
        ∧ messages s' !! length (messages state) = Some response
        ∧ is_AIMessage response = true.
Proof.
  intros Hc Hm. eexists. split; [apply (call_llm_ok _ _ _ Hm)|]. simpl.
  repeat split.
  - rewrite length_app. simpl. lia.
  - intros i m Hi. by apply lookup_app_l_Some.
  - by rewrite take_app_length.
  - rewrite lookup_app_r by lia. by rewrite Nat.sub_diag.
  - by eapply Hc.
Qed.

(** [call_llm] hands a state back exactly when the model answers; a model
    that raises makes the step raise, and no state is produced. *)
Lemma call_llm_returns_iff (state : AgentState) (model : Runnable) :
  returns (call_llm state model) = returns (model (messages state)).
Proof. unfold call_llm. destruct (model (messages state)); reflexivity. Qed.


Lemma call_llm_append_only_witness :
  ∃ s', call_llm examples.greeting examples.hello_model = Ok s'
        ∧ messages s' = [HumanMessage "Say hello"; AIMessage "Hello, world!" []].
Proof.
  assert (Hc : chat_model examples.hello_model).
  { intros ms r H. injection H as <-. reflexivity. }
  destruct (call_llm_append_only examples.greeting examples.hello_model
              (AIMessage "Hello, world!" []) Hc eq_refl) as (s' & H1 & H2 & _).
  exists s'. split; [exact H1 | exact H2].
Defined.

End graph_props.

(** ** The fallback model *)

Module main_props.
Import graph main.

Lemma fallback_content_reports (exc : exn) (url : string) :
  fallback_content exc url ≠ ""
  ∧ pystr.contains "LLM unavailable" (fallback_content exc url) = true.
Proof.
  unfold fallback_content. cbn -[pystr.contains json.escape String.append].
  split; [done|].
  change (json.encode_basestring_ascii "LLM unavailable")
    with (json.quote +:+ "LLM unavailable" +:+ json.quote).
  set (rest := json.encode_basestring_ascii _).
  vm_compute. reflexivity.
Qed.

Section fallback.
Context {T : Type}.
Variable ChatOllama : string → string → string → result (BaseChatModel T).
Variable ToolNode : list T → AgentState → result AgentState.

(** C4.  When constructing the backend raises, [create_llm] still returns a
    model; bound to any tools and asked about any messages it answers with
    an assistant message that has no tool calls and whose text is not empty
    and says the model is unavailable; a run of the graph built on it ends
    at [END] after that one answer, without raising. *)
Theorem fallback_llm_degrades (cfg : gmap string string) (exc : exn)
    (tools : list T) (msgs : list BaseMessage) :
  ChatOllama (cfg_get cfg "ollama_model" "gpt-oss:20b-cloud") (base_url cfg)
             (cfg_get cfg "temperature" "0.7") = Raise exc →
  is_Exception exc = true →
  ∃ llm text,
    create_llm ChatOllama cfg = Ok llm
    ∧ bind_tools llm tools msgs = Ok (AIMessage text [])
    ∧ text ≠ ""
    ∧ pystr.contains "LLM unavailable" text = true
    ∧ ∀ fuel, invoke (build_graph ToolNode llm tools) (S fuel) {| messages := msgs |}
              = Ok (Finished {| messages := msgs ++ [AIMessage text []] |} 1).
Proof.
  intros Hraise Hexc.
  exists (fallback_model (mkFallback exc (base_url cfg))), (fallback_content exc (base_url cfg)).
  split; [unfold create_llm; by rewrite Hraise, Hexc|].
  split; [reflexivity|].
  destruct (fallback_content_reports exc (base_url cfg)) as [Hne Hin].
  split; [exact Hne|]. split; [exact Hin|].
  intros fuel. unfold invoke.
  by apply graph_props.run_stops_without_tool_calls.
Qed.

End fallback.

Lemma fallback_llm_degrades_witness :
  ∃ llm text,
    create_llm examples.broken_ChatOllama ∅ = Ok llm
    ∧ bind_tools llm [] [HumanMessage "test"] = Ok (AIMessage text [])
    ∧ text ≠ "".
Proof.
  destruct (fallback_llm_degrades examples.broken_ChatOllama examples.idle_ToolNode
              ∅ (RuntimeError "connection refused") [] [HumanMessage "test"]
              eq_refl eq_refl) as (llm & text & H1 & H2 & H3 & _).
  exists llm, text. split; [exact H1|]. split; [exact H2 | exact H3].
Defined.

End main_props.

(** ** Strings *)

Module pystr_props.

Lemma str_app_cons (c : ascii) (s t : string) : String c s +:+ t = String c (s +:+ t).
Proof. reflexivity. Qed.


Lemma str_app_nil_r (s : string) : s +:+ "" = s.
Proof. induction s as [|c s IH]; [done|]. by rewrite str_app_cons, IH. Qed.

Lemma str_app_assoc (a b c : string) : (a +:+ b) +:+ c = a +:+ (b +:+ c).
Proof. induction a as [|x a IH]; [done|]. by rewrite !str_app_cons, IH. Qed.

Lemma str_length_app (a b : string) :
  String.length (a +:+ b) = String.length a + String.length b.
Proof. induction a as [|x a IH]; [done|]. rewrite str_app_cons. simpl. by rewrite IH. Qed.


End pystr_props.

(** ** The world and its file operations *)

Module world_props.
Import pathlib pystr_props.

Lemma bind_ok {A B} (m : M A) (f : A → M B) (w w' : World) (a : A) :
  m w = (Ok a, w') → (x <- m ;; f x) w = f a w'.
Proof. intros H. unfold bind. by rewrite H. Qed.

Lemma bind_raise {A B} (m : M A) (f : A → M B) (w w' : World) (e : exn) :
  m w = (Raise e, w') → (x <- m ;; f x) w = (Raise e, w').
Proof. intros H. unfold bind. by rewrite H. Qed.

Lemma tick_quiet (w : World) : interrupt_in w = None → tick w = (Ok (), w).
Proof. intros H. unfold tick. by rewrite H. Qed.

(** A tick leaves the file table, the read-only set and the output alone. *)
Lemma tick_frame (w w' : World) (r : result ()) :
  tick w = (r, w') →
  nodes w' = nodes w ∧ readonly w' = readonly w ∧ cwd w' = cwd w ∧ stdout w' = stdout w.
Proof.
  unfold tick. destruct (interrupt_in w) as [[|n]|]; intros [= <- <-]; done.
Qed.

Lemma set_nodes_set_nodes (f g : gmap (list string) inode → gmap (list string) inode)
    (w : World) :
  set_nodes f (set_nodes g w) = set_nodes (f ∘ g) w.
Proof. reflexivity. Qed.

Lemma set_nodes_id (f : gmap (list string) inode → gmap (list string) inode) (w : World) :
  f (nodes w) = nodes w → set_nodes f w = w.
Proof. destruct w. unfold set_nodes. simpl. by intros ->. Qed.

Lemma stat_key_agree (w w' : World) (k : list string) :
  nodes w' !! k = nodes w !! k → stat_key w' k = stat_key w k.
Proof. intros H. unfold stat_key. by destruct k. Qed.

Lemma stat_key_insert_ne (w : World) (k k' : list string) (n : inode) :
  k ≠ k' → stat_key (set_nodes <[k := n]> w) k' = stat_key w k'.
Proof. intros H. apply stat_key_agree. simpl. by rewrite lookup_insert_ne. Qed.

Lemma stat_key_insert_eq (w : World) (k : list string) (n : inode) :
  k ≠ [] → stat_key (set_nodes <[k := n]> w) k = Some n.
Proof. intros H. destruct k; [done|]. simpl. by rewrite lookup_insert_eq. Qed.

Lemma stat_key_file_nonroot (w : World) (k : list string) (c : string) :
  stat_key w k = Some (File c) → k ≠ [].
Proof. by intros H ->. Qed.

Lemma check_writable_nonroot (w : World) (k : list string) :
  check_writable w (Abs k) = Ok () → k ≠ [].
Proof. unfold check_writable. simpl. by intros H ->. Qed.


(** [check_writable] only ever raises an [OSError]. *)
Lemma check_writable_raises (w : World) (p : Path) (e : exn) :
  check_writable w p = Raise e → is_OSError e = true.
Proof.
  unfold check_writable. intros H.
  repeat match type of H with
         | context [match ?x with _ => _ end] => destruct x
         | context [if ?b then _ else _] => destruct b
         end; by simplify_eq.
Qed.

(** *** Without a pending interrupt *)

Lemma open_w_quiet (w : World) (k : list string) :
  interrupt_in w = None →
  open_ (Abs k) mode_w w
  = match check_writable w (Abs k) with
    | Ok _ => (Ok (), set_nodes <[k := File ""]> w)
    | Raise e => (Raise e, w)
    end.
Proof.
  intros H. unfold open_. rewrite (bind_ok _ _ _ _ _ (tick_quiet w H)).
  by destruct (check_writable w (Abs k)).
Qed.

Lemma write_quiet (s : string) (w : World) (k : list string) (c0 : string) :
  interrupt_in w = None →
  stat_key w k = Some (File c0) →
  write (Abs k) s w = (Ok (), set_nodes <[k := File (c0 +:+ s)]> w).
Proof.
  revert w c0. induction s as [|c r IH]; intros w c0 Hq Hst.
  - simpl. unfold ret. f_equal. symmetry. apply set_nodes_id.
    assert (k ≠ []) by by eapply stat_key_file_nonroot.
    apply insert_id. destruct k; [done|].
    by rewrite str_app_nil_r.
  - simpl. unfold bind at 1. unfold write_char.
    rewrite (bind_ok _ _ _ _ _ (tick_quiet w Hq)).
    unfold stat. simpl. rewrite Hst.
    assert (Hk : k ≠ []) by by eapply stat_key_file_nonroot.
    rewrite (IH _ (c0 +:+ String c "")); [| done | by apply stat_key_insert_eq].
    rewrite set_nodes_set_nodes. f_equal. unfold set_nodes. f_equal. simpl.
    rewrite insert_insert_eq. do 2 f_equal.
    by rewrite str_app_assoc.
Qed.

Lemma write_text_quiet (w : World) (k : list string) (c : string) :
  interrupt_in w = None →
  write_text (Abs k) c w
  = match check_writable w (Abs k) with
    | Ok _ => (Ok (), set_nodes <[k := File c]> w)
    | Raise e => (Raise e, w)
    end.
Proof.
  intros Hq. unfold write_text, bind. rewrite (open_w_quiet _ _ Hq).
  destruct (check_writable w (Abs k)) as [[]|e] eqn:E; [|done].
  assert (Hk : k ≠ []) by by eapply check_writable_nonroot.
  rewrite (write_quiet c _ k ""); [| done | by apply stat_key_insert_eq].
  rewrite set_nodes_set_nodes. f_equal. unfold set_nodes. f_equal. simpl.
  by rewrite insert_insert_eq.
Qed.

End world_props.

(** ** Paths: names, suffixes and backup paths *)

Module path_props.
Import pathlib pystr_props.

Lemma rsplit_dot_spec (n a b : string) :
  pystr.rsplit_dot n = Some (a, b) → n = a +:+ "." +:+ b.
Proof.
  revert a b. induction n as [|c n IH]; intros a b; simpl; [done|].
  destruct (pystr.rsplit_dot n) as [[a' b']|].
  - intros [= <- <-]. rewrite str_app_cons. f_equal. by apply IH.
  - destruct (Ascii.eqb_spec c ".") as [->|]; [|done].
    by intros [= <- <-].
Qed.

(** Stem and suffix put together give the name back. *)
Lemma splitext_app (n : string) : fst (splitext n) +:+ snd (splitext n) = n.
Proof.
  unfold splitext. destruct (pystr.rsplit_dot n) as [[a b]|] eqn:E.
  - destruct (bool_decide (a = "") || bool_decide (b = "")); simpl.
    + apply str_app_nil_r.
    + symmetry. by apply rsplit_dot_spec.
  - apply str_app_nil_r.
Qed.

Lemma splitext_suffix (n : string) :
  snd (splitext n) = "" ∨ ∃ b, snd (splitext n) = String "." b.
Proof.
  unfold splitext. destruct (pystr.rsplit_dot n) as [[a b]|]; [|by left].
  destruct (bool_decide (a = "") || bool_decide (b = "")); [by left|].
  right. by exists b.
Qed.

Lemma valid_suffix_bak (p : Path) : valid_suffix (suffix p +:+ ".bak") = true.
Proof.
  unfold suffix, valid_suffix.
  destruct (splitext_suffix (name p)) as [->|[b ->]]; [done|].
  rewrite str_app_cons. apply orb_true_iff. right. apply andb_true_iff. split; [done|].
  apply Nat.ltb_lt. simpl. rewrite str_length_app. simpl. lia.
Qed.

Lemma name_nonempty_parts (p : Path) : name p ≠ "" → parts p ≠ [].
Proof. unfold name. by intros H E; rewrite E in H. Qed.

(** The backup path is the path with [".bak"] added to its name. *)
Lemma with_suffix_bak (p : Path) :
  name p ≠ "" →
  with_suffix p (suffix p +:+ ".bak") = Ok (with_name p (name p +:+ ".bak")).
Proof.
  intros H. unfold with_suffix. rewrite bool_decide_eq_false_2 by done.
  rewrite valid_suffix_bak. do 2 f_equal. unfold stem, suffix.
  by rewrite <- str_app_assoc, splitext_app.
Qed.





Lemma with_name_abs (l : list string) (n : string) :
  with_name (Abs l) n = Abs (removelast l ++ [n]).
Proof. reflexivity. Qed.

Lemma joinpath_abs (root : list string) (s : string) :
  ∃ l, joinpath (Abs root) s = Abs l.
Proof. unfold joinpath. destruct (Path_of s); simpl; eauto. Qed.

Lemma joinpath_empty (p : Path) : joinpath p "" = p.
Proof. destruct p; unfold joinpath; simpl; by rewrite List.app_nil_r. Qed.

End path_props.

(** ** Copying and backing up, without a pending interrupt *)

Module backup_props.
Import pathlib pystr_props world_props path_props.

Lemma set_nodes_quiet (f : gmap (list string) inode → gmap (list string) inode) (w : World) :
  interrupt_in (set_nodes f w) = interrupt_in w.
Proof. reflexivity. Qed.

(** What [shutil.copy] of a regular file can do: write the whole content to
    a destination other than the source, or fail and change nothing. *)
Lemma copy_outcome (w w' : World) (src dst : list string) (c : string) (r : result ()) :
  interrupt_in w = None →
  stat_key w src = Some (File c) →
  shutil.copy (Abs src) (Abs dst) w = (r, w') →
  (r = Ok () ∧ ∃ d, w' = set_nodes <[d := File c]> w ∧ d ≠ src ∧ d ≠ []
                    ∧ (stat_key w dst ≠ Some Dir → d = dst))
  ∨ (∃ e, r = Raise e ∧ is_Exception e = true ∧ w' = w).
Proof.
  intros Hq Hsrc. unfold shutil.copy.
  set (dst' := match stat w (Abs dst) with Some Dir => _ | _ => _ end).
  assert (Hd : ∃ d, dst' = Abs d ∧ (stat_key w dst ≠ Some Dir → d = dst)).
  { subst dst'. unfold stat. simpl.
    destruct (stat_key w dst) as [[|]|]; try by (exists dst).
    destruct (joinpath_abs dst (name (Abs src))) as [l ->]. by exists l. }
  destruct Hd as (d & -> & Hd). simpl.
  case_bool_decide as Hsame; [intros [= <- <-]; right; eauto|].
  unfold stat. simpl. rewrite Hsrc, (write_text_quiet _ _ _ Hq).
  destruct (check_writable w (Abs d)) as [[]|e] eqn:E; intros [= <- <-].
  - left. split; [done|]. exists d. repeat split; try done.
    by eapply check_writable_nonroot.
  - right. exists e. repeat split; try done.
    apply check_writable_raises in E. by destruct e.
Qed.


Import edit_file_tool.

(** The backup step on an existing regular file with a name: it never
    raises; it either reports ["backup_created"] after writing one copy of
    the content somewhere else, or reports ["backup_failed"] and leaves the
    world as it was. *)
Lemma _backup_file_outcome (w : World) (k : list string) (c : string) :
  interrupt_in w = None →
  stat_key w k = Some (File c) →
  name (Abs k) ≠ "" →
  let bk := removelast k ++ [name (Abs k) +:+ ".bak"] in
  ∃ st w1,
    _backup_file (Abs k) w = (Ok st, w1)
    ∧ interrupt_in w1 = None
    ∧ stat_key w1 k = Some (File c)
    ∧ ((st = "backup_created"
        ∧ ∃ d, w1 = set_nodes <[d := File c]> w ∧ d ≠ k ∧ d ≠ []
               ∧ (stat_key w bk ≠ Some Dir → d = bk))
       ∨ (st = "backup_failed" ∧ w1 = w)).
Proof.
  intros Hq Hst Hn bk. unfold _backup_file.
  assert (He : exists_ (Abs k) w = (Ok true, w)).
  { unfold exists_, stat. simpl. rewrite Hst. by rewrite bool_decide_eq_true_2. }
  rewrite (bind_ok _ _ _ _ _ He). simpl.
  rewrite (with_suffix_bak _ Hn), with_name_abs. unfold lift at 1.
  unfold bind at 1. unfold try_except, bind. fold bk.
  destruct (shutil.copy (Abs k) (Abs bk) w) as [r w1] eqn:Hc.
  destruct (copy_outcome _ _ _ _ _ _ Hq Hst Hc)
    as [[-> (d & -> & Hd1 & Hd2 & Hd3)]|(e & -> & He' & ->)].
  - eexists _, _. split; [reflexivity|]. split; [done|].
    split; [by rewrite stat_key_insert_ne|]. left. split; [done|]. eauto.
  - rewrite He'. eexists _, _. split; [reflexivity|]. split; [done|].
    split; [done|]. by right.
Qed.

End backup_props.

(** ** The edit-file tool *)

Module edit_props.
Import pathlib pystr_props world_props path_props backup_props edit_file_tool.









(** On the locked backup path the backup fails, the replacement is written
    all the same, and the message says so. *)
Example edit_with_failed_backup :
  let r := _run (Abs ["work"]) "notes.md" "new" "replace" examples.work_locked_backup in
  fst r = Ok ("✅ Successfully edited_replace /work/notes.md (⚠️ Backup failed!)",
              {| path := Abs ["work"; "notes.md"]; contents := "new";
                 status := "edited_replace" |})
  ∧ stat (snd r) (Abs ["work"; "notes.md"]) = Some (File "new")
  ∧ stat (snd r) (Abs ["work"; "notes.md.bak"]) = None.
Proof. vm_compute. done. Qed.

End edit_props.

(** ** Writes that an interrupt may cut short *)

Module interrupt_props.
Import pathlib pystr_props world_props path_props.

Lemma kept_refl (k : list string) (w : World) : kept k w w.
Proof. done. Qed.

Lemma kept_trans (k : list string) (w1 w2 w3 : World) :
  kept k w1 w2 → kept k w2 w3 → kept k w1 w3.
Proof. unfold kept. congruence. Qed.

Lemma kept_stat (k : list string) (w w' : World) :
  kept k w w' → stat_key w' k = stat_key w k.
Proof. apply stat_key_agree. Qed.

Lemma tick_kept (k : list string) (w w' : World) (r : result ()) :
  tick w = (r, w') → kept k w w'.
Proof. intros H. apply tick_frame in H as (H & _). unfold kept. by rewrite H. Qed.

Lemma open_frame (k : list string) (mode : open_mode) (w w' : World) (r : result ()) :
  open_ (Abs k) mode w = (r, w') →
  (∀ k', k' ≠ k → kept k' w w')
  ∧ (r = Ok () → mode = mode_w → stat_key w' k = Some (File "")).
Proof.
  unfold open_, bind. destruct (tick w) as [[[]|e] w1] eqn:Ht.
  - pose proof (tick_frame _ _ _ Ht) as (Hn & _).
    destruct (check_writable w1 (Abs k)) as [[]|e] eqn:Hc.
    + pose proof (check_writable_nonroot _ _ Hc) as Hk.
      destruct mode; simpl.
      * intros [= <- <-]. split.
        -- intros k' Hk'. unfold kept. simpl. rewrite lookup_insert_ne by done.
           by rewrite Hn.
        -- intros _ _. by apply stat_key_insert_eq.
      * destruct (stat w1 (Abs k)) as [[c|]|]; intros [= <- <-]; (split; [|done]);
          intros k' Hk'; unfold kept; simpl; rewrite ?lookup_insert_ne by done;
          by rewrite Hn.
      * destruct (stat w1 (Abs k)) as [n|]; intros [= <- <-]; (split; [|done]);
          intros k' Hk'; unfold kept; simpl; rewrite ?lookup_insert_ne by done;
          by rewrite Hn.
    + intros [= <- <-]. split; [|done]. intros k' _. unfold kept. by rewrite Hn.
  - intros [= <- <-]. split; [|done]. intros k' _. by eapply tick_kept.
Qed.

Lemma write_char_frame (k : list string) (c : ascii) (w w' : World) (r : result ()) :
  write_char (Abs k) c w = (r, w') →
  (∀ k', k' ≠ k → kept k' w w')
  ∧ (r = Ok () → ∀ c0, stat_key w k = Some (File c0) →
     stat_key w' k = Some (File (c0 +:+ String c ""))).
Proof.
  unfold write_char, bind. destruct (tick w) as [[[]|e] w1] eqn:Ht.
  - pose proof (tick_frame _ _ _ Ht) as (Hn & _).
    unfold stat. simpl (key _ _).
    assert (Hs : stat_key w1 k = stat_key w k) by (apply stat_key_agree; by rewrite Hn).
    rewrite Hs.
    destruct (stat_key w k) as [[s|]|] eqn:E; intros [= <- <-].
    + split.
      * intros k' Hk'. unfold kept. simpl. rewrite lookup_insert_ne by done. by rewrite Hn.
      * intros _ c0 [= <-]. apply stat_key_insert_eq. by eapply stat_key_file_nonroot.
    + split; [|done]. intros k' _. unfold kept. by rewrite Hn.
    + split; [|done]. intros k' _. unfold kept. by rewrite Hn.
  - intros [= <- <-]. split; [|done]. intros k' _. by eapply tick_kept.
Qed.

Lemma write_frame (k : list string) (s : string) (w w' : World) (r : result ()) :
  write (Abs k) s w = (r, w') →
  (∀ k', k' ≠ k → kept k' w w')
  ∧ (r = Ok () → ∀ c0, stat_key w k = Some (File c0) →
     stat_key w' k = Some (File (c0 +:+ s))).
Proof.
  revert w. induction s as [|c s IH]; intros w; simpl.
  - intros [= <- <-]. split; [done|]. intros _ c0 H. by rewrite str_app_nil_r.
  - unfold bind. destruct (write_char (Abs k) c w) as [[[]|e] w1] eqn:Hc.
    + intros Hw. destruct (write_char_frame _ _ _ _ _ Hc) as [Hf1 Hc1].
      destruct (IH _ Hw) as [Hf2 Hc2]. split.
      * intros k' Hk'. eapply kept_trans; eauto.
      * intros Hr c0 H0. rewrite (Hc2 Hr _ (Hc1 eq_refl _ H0)).
        by rewrite str_app_assoc.
    + intros [= <- <-]. destruct (write_char_frame _ _ _ _ _ Hc) as [Hf1 _]. done.
Qed.





Lemma with_suffix_abs (l : list string) (s : string) (p : Path) :
  with_suffix (Abs l) s = Ok p → ∃ l', p = Abs l'.
Proof.
  unfold with_suffix. destruct (bool_decide _); [done|].
  destruct (valid_suffix s); [|done]. intros [= <-]. unfold with_name. simpl. eauto.
Qed.





(** The new-file tool overwrites in place as well. *)
Example new_file_interrupted_is_partial :
  let target := Abs ["work"; "notes.md"] in
  let r := new_file_tool._run (Abs ["work"]) "notes.md" "new!" true
             examples.work_interrupted in
  fst r = Raise KeyboardInterrupt ∧ stat (snd r) target = Some (File "n").
Proof. vm_compute. done. Qed.

End interrupt_props.

(** ** Missing targets and empty paths *)

Module missing_props.
Import pathlib pystr_props world_props path_props interrupt_props edit_file_tool.







(** The edit-file tool has no test for the empty path: the path then names
    the root itself.  Rooted at a directory the tool ends in an error once
    the write into the directory fails; rooted at a regular file it rewrites
    that file. *)
Example edit_file_empty_path_on_file_root :
  let r := _run (Abs ["work"; "notes.md"]) "" "new" "replace" examples.work in
  ∃ msg, fst r = Ok (msg, {| path := Abs ["work"; "notes.md"]; contents := "new";
                             status := "edited_replace" |}).
Proof. vm_compute. eexists. done. Qed.

Example edit_file_empty_path_on_directory_root :
  let r := _run (Abs ["work"]) "" "new" "replace" examples.work in
  ∃ res, fst r = Ok res ∧ is_error_result res = true ∧ nodes (snd r) = nodes examples.work.
Proof. vm_compute. eexists. done. Qed.

End missing_props.

(** ** The tool registry *)

Module registry_props.
Import pathlib base_agent.



End registry_props.

(** ** The interactive shell *)

Module cli_props.
Import pystr_props world_props cli.

Section shell.
Variable tools : list (string * string).
Variable agent_invoke : state → M response.

Lemma print_ok (line : string) (w : World) :
  print line w = (Ok (), set_stdout (λ out, out ++ [line]) w).
Proof. reflexivity. Qed.

Lemma list_tools_ok (w : World) :
  ∃ w', foldr (λ tool k, print ("- " +:+ fst tool +:+ ": " +:+ pystr.strip (snd tool)) ;; k)
              (ret ()) tools w = (Ok (), w').
Proof.
  revert w. induction tools as [|t ts IH]; intros w; simpl; [by eexists|].
  unfold bind at 1. rewrite print_ok. apply IH.
Qed.

(** Whatever the input, a call without a conversation state hands no state
    back. *)
Lemma _handle_command_None (user_input : string) (w : World) :
  ∃ cont w', _handle_command tools user_input None w = (Ok (cont, None), w').
Proof.
  unfold _handle_command. repeat case_bool_decide.
  all: try (unfold bind; simpl; by eexists _, _).
  unfold bind at 1. rewrite print_ok.
  destruct (list_tools_ok (set_stdout (λ out, out ++ [pystr.nl +:+ "Available tools:"]) w))
    as [w' Hw'].
  unfold bind at 1. rewrite Hw'. unfold bind. simpl. by eexists _, _.
Qed.

(** Once the loop variable holds no state, no later line reaches the agent:
    the list of invocations stays as it is, whatever is typed. *)
Lemma chat_loop_None (lines : list string) (invoked : list state) (w : World) :
  ∃ w', chat_loop tools agent_invoke lines None invoked w = (Ok (None, invoked), w').
Proof.
  revert w. induction lines as [|line lines IH]; intros w; simpl; [by eexists|].
  unfold bind at 1. unfold turn. unfold bind at 1.
  destruct (_handle_command_None (pystr.strip line) w) as (cont & w' & ->). simpl.
  destruct cont; simpl; [apply IH | by eexists].
Qed.

Lemma turn_clear (cs : option state) (invoked : list state) (w : World) :
  turn tools agent_invoke "clear" cs invoked w
  = (Ok (true, (None, invoked)),
     set_stdout (λ out, out ++ ["Conversation history cleared." +:+ pystr.nl]) w).
Proof. reflexivity. Qed.

(** After [clear] the loop variable is [None], not an empty conversation,
    and nothing typed afterwards is handed to the agent. *)
Lemma chat_after_clear (cs : state) (rest : list string) (w : World) :
  ∃ w', chat_loop tools agent_invoke ("clear" :: rest) (Some cs) [] w = (Ok (None, []), w').
Proof.
  simpl. unfold bind at 1. rewrite turn_clear. simpl. apply chat_loop_None.
Qed.

(** C5, the code at the failing input.  From a session that has some
    history, the lines [clear] and then [hello] leave the loop without a
    conversation state and without a single call of the agent: [hello] is
    dropped, where the specification has it forwarded as a human message on an
    empty conversation. *)
Theorem clear_then_hello_is_dropped (history : list entry) (w : World) :
  chat_loop tools agent_invoke ["clear"; "hello"] (Some {| messages := history |}) [] w
  = (Ok (None, []),
     set_stdout (λ out, out ++ ["Conversation history cleared." +:+ pystr.nl]) w).
Proof. reflexivity. Qed.

End shell.

(** For comparison: typed before any command the same line is forwarded, on
    top of the history; typed after [clear] it is not. *)
Example hello_is_forwarded_without_clear :
  fst (chat_loop [] examples.polite_agent ["hello"]
         (Some {| messages := [Tuple "human" "hi"] |}) [] examples.work)
  = Ok (Some {| messages := [Tuple "human" "hi"; Tuple "human" "hello";
                             Tuple "ai" "At your service."] |},
        [ {| messages := [Tuple "human" "hi"; Tuple "human" "hello"] |} ])
  ∧ fst (chat_loop [] examples.polite_agent ["clear"; "hello"]
           (Some {| messages := [Tuple "human" "hi"] |}) [] examples.work)
    = Ok (None, []).
Proof. vm_compute. done. Qed.

(** The commands [help] and [tools], and an empty line, end the forwarding
    in the same way. *)
Example help_then_hello_is_dropped :
  fst (chat_loop [] examples.polite_agent ["help"; "hello"]
         (Some {| messages := [] |}) [] examples.work)
  = Ok (None, []).
Proof. vm_compute. done. Qed.

End cli_props.

(** ** The persisted session state *)

Module persistence_props.
Import pathlib pystr_props world_props path_props interrupt_props persistent_agent.



Section agent.
Variable home : list string.
Variable json_loads : string → result json.value.
Variable json_dumps_indent : json.value → result string.
Variable agent_invoke : string → json.value → M string.

(** The serialiser raises ordinary exceptions only ([TypeError] and the
    like). *)
Hypothesis json_dumps_raises :
  ∀ v e, json_dumps_indent v = Raise e → is_Exception e = true.

Local Abbreviation state_file := (_state_file home).
Local Abbreviation load := (_load_state home json_loads).
Local Abbreviation save := (_save_state home json_dumps_indent).




(** A state file that parses to something other than a dictionary: the
    same. *)
Lemma load_not_a_dict (self : PersistentAgent) (w w1 : World) (text : string)
    (data : json.value) :
  _ensure_state_dir home w = (Ok (), w1) →
  stat w1 state_file = Some (File text) →
  json_loads text = Ok data →
  (∀ members, data ≠ json.Object members) →
  load self w
  = (Ok self, set_stdout (λ out, out ++ [load_warning
                                           (AttributeError "object has no attribute 'get'")]) w1).
Proof.
  intros He Hst Hl Hd. unfold _load_state. rewrite (bind_ok _ _ _ _ _ He).
  unfold bind at 1. unfold exists_. rewrite Hst.
  rewrite bool_decide_eq_true_2 by done.
  unfold try_except, bind, read_text, lift. rewrite Hst, Hl.
  destruct data; try reflexivity. by destruct (Hd members).
Qed.



End agent.



(** The state directory is ensured outside the [try]: when its name is taken
    by a regular file, loading and saving raise. *)
Example load_raises_when_state_dir_is_a_file :
  fst (_load_state ["home"] examples.strict_loads fresh examples.home_blocked)
  = Raise (OSError EEXIST "/home/.code_agent")
  ∧ fst (_save_state ["home"] examples.compact_dumps fresh examples.home_blocked)
    = Raise (OSError EEXIST "/home/.code_agent").
Proof. vm_compute. done. Qed.

(** A save that cannot open the state file: the reply is returned and the
    warning printed. *)
Example chat_survives_locked_state_file :
  let w := {| nodes := nodes examples.home_corrupt;
              readonly := {[ ["home"; ".code_agent"; "state.json"] ]};
              cwd := ["home"]; stdout := []; interrupt_in := None |} in
  let r := chat ["home"] examples.compact_dumps examples.terse_agent fresh "hi" w in
  (∃ a, fst r = Ok ("done", a))
  ∧ stdout (snd r)
    = [save_warning (OSError EACCES "/home/.code_agent/state.json")].
Proof. vm_compute. split; [by eexists|done]. Qed.

End persistence_props.

(** * Further properties of the code *)

(** ** Runs of the graph *)

Module run_props.
Import graph graph_props.

Section runs.
Context {T : Type}.
Variable ToolNode : list T → AgentState → result AgentState.
Variable llm : BaseChatModel T.
Variable tools : list T.

Local Abbreviation g := (build_graph ToolNode llm tools).
Local Abbreviation model := (bind_tools llm tools).

Lemma run_step (fuel : nat) (state : AgentState) (calls : nat) :
  run g (S fuel) state calls
  = match model (messages state) with
    | Raise e => Raise e
    | Ok r =>
        let s1 := {| messages := messages state ++ [r] |} in
        if requests_tools r
        then match ToolNode tools s1 with
             | Ok s2 => run g fuel s2 (S calls)
             | Raise e => Raise e
             end
        else Ok (Finished s1 (S calls))
    end.
Proof.
  simpl. unfold call_llm. destruct (model (messages state)) as [r|e]; [|done].
  simpl. rewrite should_continue_snoc. by destruct (requests_tools r).
Qed.

(** A run that finishes has called the model at least once and at most
    [fuel] times, and its final state is some earlier state with one more
    message: the model's answer to that state, which asks for no tool. *)
Theorem finished_run_ends_on_plain_answer (fuel : nat) (state final : AgentState)
    (calls n : nat) :
  run g fuel state calls = Ok (Finished final n) →
  ∃ before answer,
    model (messages before) = Ok answer
    ∧ messages final = messages before ++ [answer]
    ∧ requests_tools answer = false
    ∧ calls < n ≤ calls + fuel.
Proof.
  revert state calls. induction fuel as [|fuel IH]; intros state calls; [done|].
  rewrite run_step. destruct (model (messages state)) as [r|e] eqn:Hm; [|done].
  simpl. destruct (requests_tools r) eqn:Hr.
  - destruct (ToolNode tools _) as [s2|e]; [|done]. intros H.
    destruct (IH _ _ H) as (b & a & ? & ? & ? & ?). exists b, a. repeat split; try done; lia.
  - intros [= <- <-]. exists state, r. repeat split; try done; lia.
Qed.

(** More fuel does not change a run that has finished. *)
Theorem finished_run_ignores_extra_fuel (fuel extra : nat) (state final : AgentState)
    (calls n : nat) :
  run g fuel state calls = Ok (Finished final n) →
  run g (fuel + extra) state calls = Ok (Finished final n).
Proof.
  revert state calls. induction fuel as [|fuel IH]; intros state calls; [done|].
  change (S fuel + extra) with (S (fuel + extra)). rewrite !run_step.
  destruct (model (messages state)) as [r|e]; [|done]. simpl.
  destruct (requests_tools r); [|done].
  destruct (ToolNode tools _) as [s2|e]; [|done]. apply IH.
Qed.

(** The loop has no bound of its own: with a model that asks for a tool in
    every answer and an action node that does not raise, no amount of fuel
    lets the run finish; it is cut at the step limit after one model call
    per unit of fuel. *)
Theorem perpetual_tool_calls_never_finish (fuel : nat) (state : AgentState) (calls : nat) :
  (∀ ms, ∃ r, model ms = Ok r ∧ requests_tools r = true) →
  (∀ s, ∃ s', ToolNode tools s = Ok s') →
  ∃ s', run g fuel state calls = Ok (StepLimit s' (calls + fuel)).
Proof.
  intros Hmodel Haction. revert state calls.
  induction fuel as [|fuel IH]; intros state calls.
  - exists state. simpl. by rewrite Nat.add_0_r.
  - rewrite run_step. destruct (Hmodel (messages state)) as (r & -> & Hr). simpl.
    rewrite Hr. destruct (Haction {| messages := messages state ++ [r] |}) as [s2 ->].
    destruct (IH s2 (S calls)) as [s' ->]. exists s'. do 2 f_equal. lia.
Qed.

(** One tool round trip: the model asks for a tool, the action node
    answers, the model then answers in plain text.  The run finishes after
    exactly two model calls, on the action node's state plus that answer. *)
Theorem single_tool_round_trip (fuel : nat) (state s2 : AgentState) (r1 r2 : BaseMessage) :
  model (messages state) = Ok r1 →
  requests_tools r1 = true →
  ToolNode tools {| messages := messages state ++ [r1] |} = Ok s2 →
  model (messages s2) = Ok r2 →
  requests_tools r2 = false →
  invoke g (S (S fuel)) state = Ok (Finished {| messages := messages s2 ++ [r2] |} 2).
Proof.
  intros H1 Hr1 Ha H2 Hr2. unfold invoke.
  rewrite run_step, H1. cbv zeta. rewrite Hr1, Ha.
  rewrite run_step, H2. cbv zeta. by rewrite Hr2.
Qed.

End runs.

Lemma finished_run_ends_on_plain_answer_witness :
  ∃ before answer,
    examples.one_shot_model (messages before) = Ok answer
    ∧ requests_tools answer = false.
Proof.
  destruct (finished_run_ends_on_plain_answer examples.answering_ToolNode
              examples.one_shot_llm [] 5 examples.greeting
              {| messages := [HumanMessage "Say hello"; AIMessage "" [examples.lookup_call];
                              ToolMessage "old" "read-file" "call-1";
                              AIMessage "Here it is." []] |} 0 2 eq_refl)
    as (b & a & H1 & _ & H2 & _).
  exists b, a. split; [exact H1 | exact H2].
Defined.

Lemma finished_run_ignores_extra_fuel_witness :
  run (build_graph examples.idle_ToolNode examples.hello_llm []) (1 + 7) examples.greeting 0
  = Ok (Finished {| messages := [HumanMessage "Say hello"; AIMessage "Hello, world!" []] |} 1).
Proof.
  exact (finished_run_ignores_extra_fuel examples.idle_ToolNode examples.hello_llm []
           1 7 examples.greeting _ 0 1 eq_refl).
Defined.

Lemma perpetual_tool_calls_never_finish_witness :
  ∃ s', run (build_graph examples.idle_ToolNode examples.eager_llm []) 25 examples.greeting 0
        = Ok (StepLimit s' 25).
Proof.
  refine (perpetual_tool_calls_never_finish examples.idle_ToolNode examples.eager_llm []
            25 examples.greeting 0 _ _).
  - intros ms. by eexists.
  - intros s. by eexists.
Defined.

Lemma single_tool_round_trip_witness :
  invoke (build_graph examples.answering_ToolNode examples.one_shot_llm []) 2 examples.greeting
  = Ok (Finished {| messages := [HumanMessage "Say hello"; AIMessage "" [examples.lookup_call];
                                 ToolMessage "old" "read-file" "call-1";
                                 AIMessage "Here it is." []] |} 2).
Proof.
  exact (single_tool_round_trip examples.answering_ToolNode examples.one_shot_llm [] 0
           examples.greeting _ _ _ eq_refl eq_refl eq_refl eq_refl eq_refl).
Defined.

End run_props.

(** ** What the shells show of a run *)

Module display_props.

Section events.
Variable show_args : list (string * string) → string.
Variable show_output : option (list BaseMessage) → string.

(** The agent node hands the whole conversation back, and
    [_process_agent_event] looks at its first message only.  So for a
    conversation that starts with a message without tool calls (a human
    message, as in the main loop), the "final response" read off the event
    of the agent node is that first message, not the answer the model has
    just given, which stands last. *)
Theorem agent_event_reports_first_message (state s1 : graph.AgentState) (model : Runnable)
    (first : BaseMessage) (rest : list BaseMessage) (w : World) :
  graph.messages state = first :: rest →
  graph.requests_tools first = false →
  graph.call_llm state model = Ok s1 →
  ∃ answer,
    model (graph.messages state) = Ok answer
    ∧ graph.messages s1 = first :: rest ++ [answer]
    ∧ main_loop._process_agent_event show_args show_output
        [("agent", Some (graph.messages s1))] w
      = (Ok (Some first), w).
Proof.
  intros Hs Hf Hc.
  apply graph_props.call_llm_inv in Hc as (r & Hr & ->). exists r. simpl.
  rewrite Hs. split; [by rewrite <- Hs|]. split; [done|].
  unfold main_loop._process_agent_event. simpl.
  by destruct first as [c|c [|tc tcs]|c n i].
Qed.

(** An event of the agent node whose output has no message makes
    [_process_agent_event] raise: it indexes the empty list. *)
Lemma agent_event_without_messages (output : option (list BaseMessage)) (w : World) :
  default [] output = [] →
  main_loop._process_agent_event show_args show_output [("agent", output)] w
  = (Raise (IndexError "list index out of range"), w).
Proof. intros H. unfold main_loop._process_agent_event. simpl. by rewrite H. Qed.

End events.

Lemma agent_event_reports_first_message_witness :
  main_loop._process_agent_event (λ _, "{}") (λ _, "")
    [("agent", Some [HumanMessage "Say hello"; AIMessage "Hello, world!" []])] examples.work
  = (Ok (Some (HumanMessage "Say hello")), examples.work).
Proof.
  destruct (agent_event_reports_first_message (λ _, "{}") (λ _, "") examples.greeting
              {| graph.messages := [HumanMessage "Say hello"; AIMessage "Hello, world!" []] |}
              examples.hello_model (HumanMessage "Say hello") [] examples.work
              eq_refl eq_refl eq_refl) as (a & _ & _ & H).
  exact H.
Defined.

Import cli.

Lemma find_none_rev (msgs : list entry) :
  Forall (λ e, is_assistant_tuple e = false) msgs →
  List.find is_assistant_tuple (reverse msgs) = None.
Proof.
  intros H. apply Forall_reverse in H.
  induction H as [|e l He _ IH]; [done|]. simpl. by rewrite He.
Qed.

(** [_display_agent_response] prints an answer only when it finds a
    [(role, text)] tuple tagged ["ai"] or ["assistant"].  The states the
    graph returns hold message objects, not tuples: for them (and for any
    state without such a tuple) it prints its frame and nothing between,
    and hands the state back as the new conversation. *)
Theorem display_prints_no_answer_for_message_objects (s conversation_state : state)
    (w : World) :
  Forall (λ e, is_assistant_tuple e = false) (messages s) →
  _display_agent_response (StateDict s) conversation_state w
  = (Ok s, set_stdout (λ out, out ++ [pystr.nl +:+ rule; "🛠️  Agent response:";
                                      rule +:+ pystr.nl]) w).
Proof.
  intros H. unfold _display_agent_response, last_assistant_text.
  rewrite (find_none_rev _ H). unfold bind, print, ret, set_stdout. simpl.
  do 2 f_equal. by rewrite <- !(assoc_L (++)).
Qed.

Lemma display_prints_no_answer_for_message_objects_witness :
  stdout (snd (_display_agent_response
                 (StateDict {| messages := [Tuple "human" "hi";
                                            Message (AIMessage "Hello, world!" [])] |})
                 {| messages := [] |} examples.work))
  = [pystr.nl +:+ rule; "🛠️  Agent response:"; rule +:+ pystr.nl].
Proof.
  rewrite (display_prints_no_answer_for_message_objects
             {| messages := [Tuple "human" "hi"; Message (AIMessage "Hello, world!" [])] |}
             {| messages := [] |} examples.work).
  - reflexivity.
  - repeat constructor.
Defined.

Section shell.
Variable tools : list (string * string).
Variable agent_invoke : state → M response.

Lemma _handle_command_passes (user_input : string) (cs : option state) (w : World) :
  is_command user_input = false → user_input ≠ "" →
  _handle_command tools user_input cs w = (Ok (true, cs), w).
Proof.
  unfold is_command. intros Hc Hn. apply bool_decide_eq_false in Hc.
  unfold _handle_command.
  rewrite bool_decide_eq_false_2
    by (intros H; apply Hc; apply list_elem_of_In; apply list_elem_of_In in H;
        simpl in *; tauto).
  rewrite !bool_decide_eq_false_2; [done|..]; try done;
    intros H; apply Hc; rewrite H; apply list_elem_of_In; simpl; tauto.
Qed.

(** A line that is neither empty nor a command, typed while the shell holds
    a conversation: the agent is called once, on the conversation with the
    stripped line appended as a human entry, and the loop goes on.  The new
    conversation is the state the agent returns; when the agent raises or
    returns something else, it is the conversation with the human entry,
    which is not taken back. *)
Theorem turn_forwards_line (line : string) (cs : state) (invoked : list state)
    (w w2 : World) (r : result response) :
  let user_input := pystr.strip line in
  let asked := {| messages := messages cs ++ [Tuple "human" user_input] |} in
  is_command user_input = false → user_input ≠ "" →
  agent_invoke asked (set_stdout (λ out, out ++ [pystr.nl +:+ "🤖 Thinking..."]) w) = (r, w2) →
  r ≠ Raise KeyboardInterrupt →
  ∃ w3,
    turn tools agent_invoke line (Some cs) invoked w
    = (Ok (true, (Some (match r with Ok (StateDict s) => s | _ => asked end),
                  invoked ++ [asked])), w3).
Proof.
  intros user_input asked Hc Hn Ha Hr. unfold turn. fold user_input.
  unfold bind at 1. rewrite (_handle_command_passes _ _ _ Hc Hn). simpl.
  fold asked. unfold bind at 1. unfold print at 1. simpl.
  unfold try_except. unfold bind at 1. unfold bind at 1. rewrite Ha.
  destruct r as [[s|shown]|e].
  - unfold _display_agent_response.
    destruct (last_assistant_text (messages s)); unfold bind, print, ret; simpl; by eexists.
  - unfold _display_agent_response, bind, print, ret. simpl. by eexists.
  - assert (is_Exception e = true) as -> by by destruct e.
    unfold bind, print, ret. simpl. by eexists.
Qed.

End shell.

Lemma turn_forwards_line_witness :
  ∃ w3,
    turn [] examples.polite_agent "  hello " (Some {| messages := [] |}) [] examples.work
    = (Ok (true, (Some {| messages := [Tuple "human" "hello"; Tuple "ai" "At your service."] |},
                  [ {| messages := [Tuple "human" "hello"] |} ])), w3).
Proof.
  refine (turn_forwards_line [] examples.polite_agent "  hello " {| messages := [] |} []
            examples.work _ (Ok (StateDict _)) eq_refl _ eq_refl _); done.
Defined.

End display_props.

(** ** Finding a separator in a text *)

Module partition_props.
Import pystr_props.

Lemma startswith_app (pre s : string) :
  pystr.startswith pre s = true → ∃ rest, s = pre +:+ rest.
Proof.
  revert s. induction pre as [|a pre IH]; intros s; simpl; [by exists s|].
  destruct s as [|b s]; [done|]. intros H. apply andb_true_iff in H as [Hab Hs].
  apply Ascii.eqb_eq in Hab as ->. destruct (IH _ Hs) as [rest ->]. by exists rest.
Qed.

Lemma substring_all (s : string) (m : nat) :
  String.length s ≤ m → String.substring 0 m s = s.
Proof.
  revert m. induction s as [|c s IH]; intros m Hm; simpl in *.
  - by destruct m.
  - destruct m; [lia|]. f_equal. apply IH. lia.
Qed.

Lemma substring_drop (pre rest : string) (m : nat) :
  String.length rest ≤ m → String.substring (String.length pre) m (pre +:+ rest) = rest.
Proof.
  intros Hm. induction pre as [|c pre IH]; [by apply substring_all|].
  rewrite str_app_cons. simpl. exact IH.
Qed.

Lemma startswith_substring (sep s : string) :
  pystr.startswith sep s = true →
  s = sep +:+ String.substring (String.length sep) (String.length s) s.
Proof.
  intros E. destruct (startswith_app _ _ E) as [rest ->].
  rewrite substring_drop; [done|]. rewrite str_length_app. lia.
Qed.

(** What [partition] finds can be put together again. *)
Lemma partition_join (sep s a b : string) :
  pystr.partition sep s = Some (a, b) → s = a +:+ sep +:+ b.
Proof.
  revert a b. induction s as [|c s IH]; intros a b.
  - simpl. destruct (pystr.startswith sep "") eqn:E; [|done].
    intros [= <- <-]. exact (startswith_substring _ _ E).
  - unfold pystr.partition. fold pystr.partition.
    destruct (pystr.startswith sep (String c s)) eqn:E.
    + intros [= <- <-]. exact (startswith_substring _ _ E).
    + destruct (pystr.partition sep s) as [[a' b']|]; [|done].
      intros [= <- <-]. rewrite str_app_cons. f_equal. by apply IH.
Qed.

(** [partition] finds the separator exactly when the text contains it. *)
Lemma partition_none (sep s : string) :
  pystr.contains sep s = false → pystr.partition sep s = None.
Proof.
  induction s as [|c s IH]; simpl.
  - intros H. apply orb_false_iff in H as [-> _]. done.
  - intros H. apply orb_false_iff in H as [E H]. rewrite E. by rewrite (IH H).
Qed.

Lemma partition_some (sep s : string) :
  pystr.contains sep s = true → ∃ a b, pystr.partition sep s = Some (a, b).
Proof.
  induction s as [|c s IH]; simpl.
  - intros H. apply orb_true_iff in H as [E|]; [|done]. rewrite E. eauto.
  - intros H. destruct (pystr.startswith sep (String c s)) eqn:E; [eauto|].
    simpl in H. destruct (IH H) as (a & b & ->). eauto.
Qed.

End partition_props.

(** ** What a successful edit leaves in the file *)

Module edit_result_props.
Import pathlib pystr_props world_props path_props interrupt_props partition_props.
Import edit_file_tool.

Lemma write_text_frame (k : list string) (c : string) (w w' : World) (r : result ()) :
  write_text (Abs k) c w = (r, w') →
  (∀ k', k' ≠ k → kept k' w w')
  ∧ (r = Ok () → stat_key w' k = Some (File c)).
Proof.
  unfold write_text, bind.
  destruct (open_ (Abs k) mode_w w) as [[[]|e] w1] eqn:Ho.
  - destruct (open_frame _ _ _ _ _ Ho) as [Hf Hc]. intros Hw.
    destruct (write_frame _ _ _ _ _ Hw) as [Hf' Hc']. split.
    + intros k' Hk'. eapply kept_trans; eauto.
    + intros Hr. by rewrite (Hc' Hr _ (Hc eq_refl eq_refl)).
  - intros [= <- <-]. split; [|done]. by apply (open_frame _ _ _ _ _ Ho).
Qed.

(** Copying never touches its source. *)
Lemma copy_keeps_source (src dst : list string) (w w' : World) (r : result ()) :
  shutil.copy (Abs src) (Abs dst) w = (r, w') → kept src w w'.
Proof.
  unfold shutil.copy.
  set (dst' := match stat w (Abs dst) with Some Dir => _ | _ => _ end).
  assert (Hd : ∃ d, dst' = Abs d).
  { subst dst'. destruct (stat w (Abs dst)) as [[|]|]; eauto.
    apply joinpath_abs. }
  destruct Hd as [d ->]. simpl. case_bool_decide as Hne; [by intros [= <- <-]|].
  destruct (stat w (Abs src)) as [[c|]|]; [| by intros [= <- <-] ..].
  intros H. by apply (write_text_frame _ _ _ _ _ H).
Qed.

(** The backup step never touches the file it backs up. *)
Lemma _backup_file_keeps_target (k : list string) (w w' : World) (r : result string) :
  _backup_file (Abs k) w = (r, w') → kept k w w'.
Proof.
  unfold _backup_file, bind, exists_. destruct (negb _); [by intros [= <- <-]|].
  unfold lift. destruct (with_suffix _ _) as [bk|e] eqn:Hbk; [|by intros [= <- <-]].
  destruct (with_suffix_abs _ _ _ Hbk) as [d ->].
  unfold try_except, bind.
  destruct (shutil.copy (Abs k) (Abs d) w) as [[[]|e] w1] eqn:Hc;
    pose proof (copy_keeps_source _ _ _ _ _ Hc) as Hk.
  - by intros [= <- <-].
  - destruct (is_Exception e); by intros [= <- <-].
Qed.

(** A result of the edit-file tool that does not carry the error status
    comes from one path through [_run]: the backup step has returned, the
    edit function of the mode has returned, and the file has been read
    back. *)
Lemma run_success_inv (root : list string) (file_path content mode msg : string)
    (fo : FileObject) (w w' : World) (old : string) :
  let full_path := joinpath (Abs root) file_path in
  stat w full_path = Some (File old) →
  _run (Abs root) file_path content mode w = (Ok (msg, fo), w') →
  status fo ≠ "error" →
  ∃ edit st w1 final,
    edit_functions mode = Some edit
    ∧ _backup_file full_path w = (Ok st, w1)
    ∧ stat w1 full_path = Some (File old)
    ∧ edit full_path content w1 = (Ok (), w')
    ∧ stat w' full_path = Some (File final)
    ∧ fo = {| path := full_path; contents := final; status := "edited_" +:+ mode |}.
Proof.
  intros full_path Hst Hrun Hok.
  destruct (joinpath_abs root file_path) as [k Hk].
  unfold _run in Hrun. fold full_path in Hrun. subst full_path. rewrite Hk in *.
  unfold stat in Hst. simpl in Hst.
  assert (He : exists_ (Abs k) w = (Ok true, w)).
  { unfold exists_, stat. simpl. rewrite Hst. by rewrite bool_decide_eq_true_2. }
  rewrite (bind_ok _ _ _ _ _ He) in Hrun. simpl in Hrun. unfold try_except in Hrun.
  destruct (_backup_file (Abs k) w) as [[st|e] w1] eqn:Hb; cycle 1.
  { rewrite (bind_raise _ _ _ _ _ Hb) in Hrun.
    destruct (is_Exception e); unfold ret in Hrun; simplify_eq; by destruct Hok. }
  pose proof (kept_stat _ _ _ (_backup_file_keeps_target _ _ _ _ Hb)) as Hk1.
  rewrite (bind_ok _ _ _ _ _ Hb) in Hrun.
  destruct (edit_functions mode) as [edit|] eqn:Hm; cycle 1.
  { unfold ret in Hrun; simplify_eq; by destruct Hok. }
  destruct (edit (Abs k) content w1) as [[[]|e] w2] eqn:Hed; cycle 1.
  { rewrite (bind_raise _ _ _ _ _ Hed) in Hrun.
    destruct (is_Exception e); unfold ret in Hrun; simplify_eq; by destruct Hok. }
  rewrite (bind_ok _ _ _ _ _ Hed) in Hrun. unfold bind, read_text in Hrun.
  destruct (stat w2 (Abs k)) as [[final|]|] eqn:Hf;
    [| simpl in Hrun; unfold ret in Hrun; simplify_eq; by destruct Hok ..].
  unfold ret in Hrun. simplify_eq.
  exists edit, st, w1, final. unfold stat. simpl (key _ _).
  repeat split; try done. by rewrite Hk1.
Qed.

(** Replace and append.  When the edit-file tool, called on a regular file
    holding [old], returns a result without the error status, then in mode
    ["replace"] the file holds the new content, in mode ["append"] it holds
    [old] followed by the new content, and the artifact shows exactly what
    the file holds. *)
Theorem successful_replace_and_append (root : list string)
    (file_path content mode msg : string) (fo : FileObject) (w w' : World) (old : string) :
  let full_path := joinpath (Abs root) file_path in
  stat w full_path = Some (File old) →
  _run (Abs root) file_path content mode w = (Ok (msg, fo), w') →
  status fo ≠ "error" →
  stat w' full_path = Some (File (contents fo))
  ∧ (mode = "replace" → contents fo = content ∧ status fo = "edited_replace")
  ∧ (mode = "append" → contents fo = old +:+ content ∧ status fo = "edited_append").
Proof.
  intros full_path Hst Hrun Hok.
  destruct (run_success_inv _ _ _ _ _ _ _ _ _ Hst Hrun Hok)
    as (edit & st & w1 & final & Hm & Hb & Hst1 & Hed & Hf & ->).
  fold full_path in Hst1, Hed, Hf |- *. simpl.
  destruct (joinpath_abs root file_path) as [k Hk]. fold full_path in Hk.
  rewrite Hk in *. unfold stat in *. simpl in Hst1, Hf |- *.
  split; [done|]. split.
  - intros ->. injection Hm as <-. unfold _edit_replace in Hed.
    destruct (write_text_frame _ _ _ _ _ Hed) as [_ Hc]. specialize (Hc eq_refl).
    rewrite Hc in Hf. by injection Hf as <-.
  - intros ->. injection Hm as <-. unfold _edit_append, bind, read_text, stat in Hed.
    simpl in Hed. rewrite Hst1 in Hed.
    destruct (write_text_frame _ _ _ _ _ Hed) as [_ Hc]. specialize (Hc eq_refl).
    rewrite Hc in Hf. by injection Hf as <-.
Qed.

Lemma successful_replace_and_append_witness :
  let r := _run (Abs ["work"]) "notes.md" " and new" "append" examples.work in
  stat (snd r) (Abs ["work"; "notes.md"]) = Some (File "old and new").
Proof.
  destruct (_run (Abs ["work"]) "notes.md" " and new" "append" examples.work)
    as [[[msg fo]|e] w'] eqn:E; [|by vm_compute in E].
  assert (Hs : status fo = "edited_append") by (vm_compute in E; by injection E as <- <- <-).
  destruct (successful_replace_and_append ["work"] "notes.md" " and new" "append" msg fo
              examples.work w' "old" eq_refl E) as (H1 & _ & H2).
  { by rewrite Hs. }
  destruct (H2 eq_refl) as [Hc _]. rewrite Hc in H1. exact H1.
Defined.

(** Patch.  When the edit-file tool in mode ["patch"] returns a result
    without the error status: if the file held both markers, it held some
    [pre], the start marker, some [mid], the end marker and some [post], and
    it now holds the same with [mid] replaced by the new content on lines of
    its own; what stood outside the markers is kept.  Otherwise the new
    content has been added after a line break. *)
Theorem successful_patch (root : list string) (file_path content msg : string)
    (fo : FileObject) (w w' : World) (old : string) :
  let full_path := joinpath (Abs root) file_path in
  stat w full_path = Some (File old) →
  _run (Abs root) file_path content "patch" w = (Ok (msg, fo), w') →
  status fo ≠ "error" →
  stat w' full_path = Some (File (contents fo))
  ∧ if pystr.contains start_marker old && pystr.contains end_marker old
    then ∃ pre mid post,
           old = pre +:+ start_marker +:+ mid +:+ end_marker +:+ post
           ∧ contents fo = pre +:+ start_marker +:+ pystr.nl +:+ content +:+ pystr.nl
                           +:+ end_marker +:+ post
    else contents fo = old +:+ pystr.nl +:+ content.
Proof.
  intros full_path Hst Hrun Hok.
  destruct (run_success_inv _ _ _ _ _ _ _ _ _ Hst Hrun Hok)
    as (edit & st & w1 & final & Hm & Hb & Hst1 & Hed & Hf & ->).
  fold full_path in Hst1, Hed, Hf |- *. simpl.
  destruct (joinpath_abs root file_path) as [k Hk]. fold full_path in Hk.
  rewrite Hk in *. unfold stat in *. simpl in Hst1, Hf |- *.
  split; [done|]. injection Hm as <-.
  unfold _edit_patch in Hed. unfold bind at 1 in Hed. unfold read_text, stat in Hed.
  simpl in Hed. rewrite Hst1 in Hed. unfold bind at 1 in Hed.
  destruct (pystr.contains start_marker old && pystr.contains end_marker old).
  - unfold bind at 1 in Hed. unfold lift at 1 in Hed. unfold pystr.split1 at 1 in Hed.
    destruct (pystr.partition start_marker old) as [[pre rest]|] eqn:Hp1; [|done].
    simpl in Hed. unfold bind at 1 in Hed. unfold lift at 1 in Hed.
    unfold pystr.split1 in Hed.
    destruct (pystr.partition end_marker rest) as [[mid post]|] eqn:Hp2; [|done].
    simpl in Hed. unfold ret in Hed.
    destruct (write_text_frame _ _ _ _ _ Hed) as [_ Hc]. specialize (Hc eq_refl).
    rewrite Hc in Hf. injection Hf as <-.
    exists pre, mid, post. split; [|done].
    rewrite (partition_join _ _ _ _ Hp1). by rewrite (partition_join _ _ _ _ Hp2).
  - unfold ret in Hed.
    destruct (write_text_frame _ _ _ _ _ Hed) as [_ Hc]. specialize (Hc eq_refl).
    rewrite Hc in Hf. by injection Hf as <-.
Qed.

Lemma successful_patch_witness :
  let r := _run (Abs ["docs"]) "page.md" "fresh" "patch" examples.docs in
  stat (snd r) (Abs ["docs"; "page.md"])
  = Some (File ("intro<!-- AUTOGEN START -->" +:+ pystr.nl +:+ "fresh" +:+ pystr.nl
                +:+ "<!-- AUTOGEN END -->outro")).
Proof.
  destruct (_run (Abs ["docs"]) "page.md" "fresh" "patch" examples.docs)
    as [[[msg fo]|e] w'] eqn:E; [|by vm_compute in E].
  assert (Hs : status fo = "edited_patch" ∧ contents fo
               = "intro<!-- AUTOGEN START -->" +:+ pystr.nl +:+ "fresh" +:+ pystr.nl
                 +:+ "<!-- AUTOGEN END -->outro")
    by (vm_compute in E; by injection E as <- <- <-).
  destruct Hs as [Hs Hc].
  destruct (successful_patch ["docs"] "page.md" "fresh" msg fo
              examples.docs w' _ eq_refl E) as (H1 & _).
  { by rewrite Hs. }
  rewrite Hc in H1. exact H1.
Defined.

(** Patch with the end marker out of place.  When both markers occur in
    the file but no end marker follows the first start marker, the tool
    gives up with an error-status result and the file keeps its content
    (the backup step has run by then). *)
Theorem patch_with_misplaced_end_marker (root : list string) (file_path content : string)
    (w : World) (old pre rest : string) :
  interrupt_in w = None →
  let full_path := joinpath (Abs root) file_path in
  stat w full_path = Some (File old) →
  pystr.contains end_marker old = true →
  pystr.partition start_marker old = Some (pre, rest) →
  pystr.contains end_marker rest = false →
  ∃ msg w',
    _run (Abs root) file_path content "patch" w = (Ok (msg, error_object full_path), w')
    ∧ is_error_result (msg, error_object full_path) = true
    ∧ stat w' full_path = Some (File old).
Proof.
  intros Hq full_path Hst Hend Hp Hrest.
  destruct (joinpath_abs root file_path) as [k Hk].
  unfold _run. fold full_path. subst full_path. rewrite Hk in *.
  unfold stat in Hst. simpl in Hst.
  assert (He : exists_ (Abs k) w = (Ok true, w)).
  { unfold exists_, stat. simpl. rewrite Hst. by rewrite bool_decide_eq_true_2. }
  rewrite (bind_ok _ _ _ _ _ He). simpl. unfold try_except.
  destruct (decide (name (Abs k) = "")) as [Hn|Hn].
  - assert (Hb : _backup_file (Abs k) w
                 = (Raise (ValueError (fspath (Abs k) +:+ " has an empty name")), w)).
    { unfold _backup_file. rewrite (bind_ok _ _ _ _ _ He). simpl.
      unfold with_suffix. rewrite bool_decide_eq_true_2 by done. reflexivity. }
    rewrite (bind_raise _ _ _ _ _ Hb). simpl. eexists _, w.
    split; [reflexivity|]. split; [done|]. done.
  - destruct (backup_props._backup_file_outcome w k old Hq Hst Hn)
      as (st & w1 & Hb & Hq1 & Hst1 & _).
    rewrite (bind_ok _ _ _ _ _ Hb).
    assert (Hcs : pystr.contains start_marker old = true).
    { destruct (pystr.contains start_marker old) eqn:E; [done|].
      by rewrite (partition_none _ _ E) in Hp. }
    assert (Hed : ∃ e, _edit_patch (Abs k) content w1 = (Raise (ValueError e), w1)).
    { unfold _edit_patch. unfold bind at 1. unfold read_text, stat. simpl (key _ _).
      rewrite Hst1, Hcs, Hend. simpl. unfold bind at 1. unfold bind at 1.
      unfold lift at 1. unfold pystr.split1 at 1. rewrite Hp. simpl.
      unfold bind at 1. unfold lift at 1. unfold pystr.split1.
      rewrite (partition_none _ _ Hrest). by eexists. }
    destruct Hed as [e Hed].
    rewrite (bind_raise _ _ _ _ _ Hed). simpl. eexists _, w1.
    split; [reflexivity|]. split; [done|]. done.
Qed.

Lemma patch_with_misplaced_end_marker_witness :
  ∃ msg w',
    _run (Abs ["docs"]) "odd.md" "fresh" "patch" examples.docs
    = (Ok (msg, error_object (Abs ["docs"; "odd.md"])), w')
    ∧ stat w' (Abs ["docs"; "odd.md"])
      = Some (File "<!-- AUTOGEN END -->text<!-- AUTOGEN START -->").
Proof.
  destruct (patch_with_misplaced_end_marker ["docs"] "odd.md" "fresh" examples.docs
              "<!-- AUTOGEN END -->text<!-- AUTOGEN START -->" "<!-- AUTOGEN END -->text" ""
              eq_refl eq_refl eq_refl eq_refl eq_refl) as (msg & w' & H1 & _ & H2).
  exists msg, w'. split; [exact H1 | exact H2].
Defined.

End edit_result_props.

(** ** Reading tools, and creating without overwriting *)

Module read_create_props.
Import pathlib pystr_props world_props path_props interrupt_props edit_result_props.
Import edit_file_tool.

Lemma read_file_regular (root : list string) (file_path c : string) (w : World) :
  file_path ≠ "" →
  stat w (joinpath (Abs root) file_path) = Some (File c) →
  read_file_tool._run (Abs root) file_path w
  = (Ok ("Content of " +:+ file_path +:+ ":" +:+ pystr.nl +:+ pystr.nl
         +:+ "---" +:+ pystr.nl +:+ c +:+ pystr.nl +:+ "---"), w).
Proof.
  intros Hfp Hst. unfold read_file_tool._run. rewrite bool_decide_eq_false_2 by done.
  unfold bind, exists_, is_file, try_except, read_text. rewrite Hst.
  rewrite bool_decide_eq_true_2 by done.
  cbn [negb]. rewrite Hst. cbn [negb]. by rewrite Hst.
Qed.

(** The two reading tools never raise and never change the file system,
    whatever the root, the path and the world: a missing file, a directory
    or an empty path gives a message.  For a regular file the read-file tool
    returns the content in its frame, and the linker tool returns the
    content itself with a file object of status ["read"]. *)
Theorem reading_tools_only_read (root : list string) (file_path : string) (w : World) :
  (∃ msg, read_file_tool._run (Abs root) file_path w = (Ok msg, w)
          ∧ ∀ c, file_path ≠ "" → stat w (joinpath (Abs root) file_path) = Some (File c) →
                 msg = "Content of " +:+ file_path +:+ ":" +:+ pystr.nl +:+ pystr.nl
                       +:+ "---" +:+ pystr.nl +:+ c +:+ pystr.nl +:+ "---")
  ∧ (∃ res, linker_tool._run (Abs root) file_path w = (Ok res, w)
            ∧ ∀ c, stat w (joinpath (Abs root) file_path) = Some (File c) →
                   res = (c, {| path := joinpath (Abs root) file_path; contents := c;
                                status := "read" |})).
Proof.
  split.
  - destruct (decide (file_path = "")) as [->|Hfp].
    { eexists. split; [reflexivity|]. by intros c Hc. }
    destruct (stat w (joinpath (Abs root) file_path)) as [[c|]|] eqn:E.
    + eexists. split; [by apply read_file_regular|]. by intros c' _ [= <-].
    + unfold read_file_tool._run. rewrite bool_decide_eq_false_2 by done.
      unfold bind, exists_, is_file. rewrite E.
      rewrite bool_decide_eq_true_2 by done. cbn [negb]. rewrite E. simpl.
      eexists. split; [reflexivity|]. done.
    + unfold read_file_tool._run. rewrite bool_decide_eq_false_2 by done.
      unfold bind, exists_. rewrite E.
      rewrite bool_decide_eq_false_2 by (by intros []). simpl.
      eexists. split; [reflexivity|]. done.
  - unfold linker_tool._run, bind, exists_, try_except, read_text.
    destruct (stat w (joinpath (Abs root) file_path)) as [[c|]|] eqn:E.
    + rewrite bool_decide_eq_true_2 by done. cbn [negb]. rewrite E. simpl.
      eexists. split; [reflexivity|]. by intros c' [= <-].
    + rewrite bool_decide_eq_true_2 by done. cbn [negb]. rewrite E. simpl.
      eexists. split; [reflexivity|]. done.
    + rewrite bool_decide_eq_false_2 by (by intros []). simpl.
      eexists. split; [reflexivity|]. done.
Qed.

(** Without [overwrite=True] the new-file tool never replaces anything: if
    there is a node at the target, file or directory, it returns an
    error-status result and leaves the world as it is. *)
Theorem new_file_refuses_existing_target (root : list string) (file_path content : string)
    (w : World) (n : inode) :
  stat w (joinpath (Abs root) file_path) = Some n →
  ∃ msg obj,
    new_file_tool._run (Abs root) file_path content false w = (Ok (msg, obj), w)
    ∧ status obj = "error".
Proof.
  intros Hst. unfold new_file_tool._run. case_bool_decide; [by eexists _, _|].
  unfold try_except, bind, exists_. rewrite Hst.
  rewrite bool_decide_eq_true_2 by done. simpl. by eexists _, _.
Qed.

Lemma new_file_refuses_existing_target_witness :
  ∃ msg obj,
    new_file_tool._run (Abs ["work"]) "notes.md" "new" false examples.work
    = (Ok (msg, obj), examples.work)
    ∧ status obj = "error".
Proof.
  exact (new_file_refuses_existing_target ["work"] "notes.md" "new" examples.work
           (File "old") eq_refl).
Defined.

(** What the new-file tool reports as created is there: when its result
    carries the status ["created"], the target is a regular file holding the
    content, whether it was made or overwritten. *)
Lemma new_file_created_inv (root : list string) (file_path content msg : string)
    (overwrite : bool) (obj : FileObject) (w w' : World) :
  new_file_tool._run (Abs root) file_path content overwrite w = (Ok (msg, obj), w') →
  status obj = "created" →
  file_path ≠ "" ∧ stat w' (joinpath (Abs root) file_path) = Some (File content).
Proof.
  intros Hrun Hs. unfold new_file_tool._run in Hrun.
  case_bool_decide as Hfp; [unfold ret in Hrun; by simplify_eq|].
  split; [done|].
  destruct (joinpath_abs root file_path) as [k Hk]. rewrite Hk in *.
  unfold try_except in Hrun.
  match type of Hrun with (let (_, _) := ?body w in _) = _ =>
    destruct (body w) as [[res|e] wb] eqn:Hb end; cycle 1.
  { destruct (is_Exception e); unfold ret in Hrun; by simplify_eq. }
  simplify_eq. unfold bind at 1 in Hb. unfold exists_ at 1 in Hb.
  destruct (bool_decide (is_Some (stat w (Abs k))) && negb overwrite);
    [unfold ret in Hb; by simplify_eq|].
  unfold bind at 1 in Hb.
  match type of Hb with (let (_, _) := ?m w in _) = _ =>
    destruct (m w) as [[st|e] w1] end; [|done].
  unfold bind at 1 in Hb.
  destruct (mkdir (parent (Abs k)) w1) as [[[]|e] w2]; [|done].
  unfold bind at 1 in Hb.
  destruct (write_text (Abs k) content w2) as [[[]|e] w3] eqn:Hw; [|done].
  unfold ret in Hb. simplify_eq.
  by apply (write_text_frame _ _ _ _ _ Hw).
Qed.

(** Create, then read.  After the new-file tool has reported a file as
    created, the read-file tool called with the same root and path returns
    the content that was given, in its frame. *)
Theorem new_file_then_read_file (root : list string) (file_path content msg : string)
    (overwrite : bool) (obj : FileObject) (w w' : World) :
  new_file_tool._run (Abs root) file_path content overwrite w = (Ok (msg, obj), w') →
  status obj = "created" →
  read_file_tool._run (Abs root) file_path w'
  = (Ok ("Content of " +:+ file_path +:+ ":" +:+ pystr.nl +:+ pystr.nl
         +:+ "---" +:+ pystr.nl +:+ content +:+ pystr.nl +:+ "---"), w').
Proof.
  intros Hrun Hs. destruct (new_file_created_inv _ _ _ _ _ _ _ _ Hrun Hs) as [Hfp Hst].
  by apply read_file_regular.
Qed.

Lemma new_file_then_read_file_witness :
  ∃ msg obj w',
    new_file_tool._run (Abs ["work"]) "todo.md" "buy milk" false examples.work
    = (Ok (msg, obj), w')
    ∧ status obj = "created"
    ∧ read_file_tool._run (Abs ["work"]) "todo.md" w'
      = (Ok ("Content of todo.md:" +:+ pystr.nl +:+ pystr.nl +:+ "---" +:+ pystr.nl
             +:+ "buy milk" +:+ pystr.nl +:+ "---"), w').
Proof.
  eexists _, _, _. split; [vm_compute; reflexivity|]. split; [reflexivity|].
  refine (new_file_then_read_file ["work"] "todo.md" "buy milk" _ false _
            examples.work _ _ _); [vm_compute; reflexivity|reflexivity].
Defined.

End read_create_props.
